(** * SamplableSet: the Python facade over the compiled sampling engine

    The development embeds [SamplableSet/_wrapper.py].  Python objects live
    in an explicit store, since the facade keeps a reference to one engine
    object and binds that object's methods as its own attributes; every
    operation is a function from a store to an outcome and a store. *)

From Stdlib Require Import QArith.
From stdpp Require Import gmap strings list fin_maps pretty.

Open Scope string_scope.
Open Scope list_scope.

(** ** Numbers

    A Python float is modelled by its exact value, a rational, or by one of
    the three special values.  Rounding is not modelled. *)

Inductive pyfloat :=
  | Fin (q : Q)
  | PInf
  | NInf
  | NaN.

(** [a <= b] on floats; every comparison with [nan] is false. *)
Definition fle (a b : pyfloat) : bool :=
  match a, b with
  | NaN, _ | _, NaN => false
  | NInf, _ => true
  | _, PInf => true
  | Fin x, Fin y => Qle_bool x y
  | _, _ => false
  end.

(** [a < b] on floats. *)
Definition flt (a b : pyfloat) : bool :=
  match a, b with
  | NaN, _ | _, NaN => false
  | PInf, _ => false
  | _, NInf => false
  | Fin x, Fin y => negb (Qle_bool y x)
  | _, _ => true
  end.

(** [a + b], computed exactly on finite values: the rounding of a binary
    float is not modelled, so nothing that needs a sum to be exact is
    stated of a total weight. *)
Definition fadd (a b : pyfloat) : pyfloat :=
  match a, b with
  | NaN, _ | _, NaN => NaN
  | PInf, NInf | NInf, PInf => NaN
  | PInf, _ | _, PInf => PInf
  | NInf, _ | _, NInf => NInf
  | Fin x, Fin y => Fin (Qred (x + y))
  end.

Definition fneg (a : pyfloat) : pyfloat :=
  match a with
  | Fin x => Fin (Qred (- x))
  | PInf => NInf
  | NInf => PInf
  | NaN => NaN
  end.

Definition fsub (a b : pyfloat) : pyfloat := fadd a (fneg b).

Definition fzero : pyfloat := Fin 0.

(** [bool(x)] of a float: false exactly for zero. *)
Definition float_truthy (a : pyfloat) : bool :=
  match a with
  | Fin x => negb (Qeq_bool x 0)
  | _ => true
  end.

(** ** Keys

    The values the wrapper meets as elements: an integer, a tuple of three
    integers, a string, and the type object [int] itself (the only value
    [v] for which [v is int] holds). *)

Inductive pykey :=
  | KInt (z : Z)
  | KTriple (a b c : Z)
  | KStr (s : string)
  | KIntType.

Global Instance pykey_eq_dec : EqDecision pykey.
Proof. solve_decision. Defined.

Global Instance pykey_countable : Countable pykey.
Proof.
  refine (inj_countable'
    (fun k => match k with
              | KInt z => inl (inl z)
              | KTriple a b c => inl (inr (a, b, c))
              | KStr s => inr (inl s)
              | KIntType => inr (inr ())
              end)
    (fun x => match x with
              | inl (inl z) => KInt z
              | inl (inr (a, b, c)) => KTriple a b c
              | inr (inl s) => KStr s
              | inr (inr _) => KIntType
              end) _).
  by intros [].
Defined.

(** [v is int]: identity with the type object. *)
Definition is_int_type (v : pykey) : bool :=
  match v with
  | KIntType => true
  | _ => false
  end.

(** ** Exceptions and outcomes *)

Inductive value_error :=
  | OutOfRange        (* a weight or a bound outside the allowed range *)
  | LengthMismatch.   (* 'elements' and 'weights' should have the same length. *)

Inductive exn :=
  | ValueError (why : value_error)
  | TypeError
  | AttributeError (name : string)
  | StopIteration
  | KeyNotFoundError
  | DuplicateKeyError.

Inductive result (A : Type) :=
  | Ok (a : A)
  | Raise (e : exn).
Arguments Ok {A} a.
Arguments Raise {A} e.

Definition is_ok {A} (r : result A) : bool :=
  match r with
  | Ok _ => true
  | Raise _ => false
  end.

(** ** The compiled engine

    The wrapper imports [IntSamplableSet] and [EdgeSamplableSet] from the
    compiled module [_SamplableSetCR]; their code is not part of the Python
    sources, so the engine below follows the written contract of the
    container. *)

(** The [cpp_type] argument of the wrapper: ['int'] or ['edge']. *)
Inductive cpp_kind :=
  | type_int
  | type_edge.

Global Instance cpp_kind_eq_dec : EqDecision cpp_kind.
Proof. solve_decision. Defined.

(** Modelled from the spec: which key shapes a compiled class stores.  The
    compiled classes are missing; the contract fixes one key variant per
    container, a scalar integer or a triple of integers. *)
Definition key_matches (t : cpp_kind) (k : pykey) : bool :=
  match t, k with
  | type_int, KInt _ => true
  | type_edge, KTriple _ _ _ => true
  | _, _ => false
  end.

(** Modelled from the spec: the state of a compiled container object (the
    classes of [_SamplableSetCR] are missing).  The contents are the
    key-to-weight association that the buckets and the key index hold
    together; [e_total] is the running total, kept incrementally; [e_rng] is
    the state of the container's own random source. *)
Record engine := Engine {
  e_type : cpp_kind;
  e_min : pyfloat;
  e_max : pyfloat;
  e_items : gmap pykey pyfloat;
  e_total : pyfloat;
  e_rng : Z
}.

(** The container with other contents and total. *)
Definition set_items (e : engine) (m : gmap pykey pyfloat) (t : pyfloat) : engine :=
  Engine (e_type e) (e_min e) (e_max e) m t (e_rng e).

(** The container with its random source in another state. *)
Definition set_rng (e : engine) (s : Z) : engine :=
  Engine (e_type e) (e_min e) (e_max e) (e_items e) (e_total e) s.

(** Modelled from the spec: the random source of the missing compiled
    module, a seedable generator of uniform reals in [0,1).  A
    multiplicative congruential generator stands for it; this is its
    modulus. *)
Definition rng_modulus : Z := 2147483647.

(** Modelled from the spec: the state the missing random source starts from
    when no seed is given. *)
Definition rng_default_seed : Z := 5489.

(** Modelled from the spec: seeding of the missing random source. *)
Definition rng_seed (seed : option Z) : Z :=
  let s := ((default rng_default_seed seed) mod rng_modulus)%Z in
  if (s =? 0)%Z then 1%Z else s.

(** Modelled from the spec: one step of the missing random source. *)
Definition rng_next (s : Z) : Z := ((48271 * s) mod rng_modulus)%Z.

(** Modelled from the spec: the uniform real in [0,1) the missing random
    source gives in state [s]. *)
Definition rng_uniform (s : Z) : Q := Qmake s (Z.to_pos rng_modulus).

(** Modelled from the spec: the condition on the bounds that the missing
    constructor checks, [0 < min_weight < max_weight < infinity]. *)
Definition valid_bounds (mn mx : pyfloat) : bool :=
  flt fzero mn && flt mn mx && flt mx PInf.

(** Modelled from the spec: [new(min_weight, max_weight, seed?)] of the
    missing compiled classes, which fails with the range error unless the
    bounds are valid; the new container is empty. *)
Definition engine_new (t : cpp_kind) (mn mx : pyfloat) (seed : option Z)
  : result engine :=
  if valid_bounds mn mx
  then Ok (Engine t mn mx ∅ fzero (rng_seed seed))
  else Raise (ValueError OutOfRange).

(** Modelled from the spec: the copy constructor of the missing compiled
    classes, a deep clone of contents and bounds whose random source is
    forked (its state is copied, never shared). *)
Definition engine_copy (e : engine) : engine :=
  Engine (e_type e) (e_min e) (e_max e) (e_items e) (e_total e) (e_rng e).

(** Modelled from the spec: the range every stored weight of the missing
    engine lies in, [min_weight <= w <= max_weight]. *)
Definition weight_in_range (mn mx w : pyfloat) : bool := fle mn w && fle w mx.

(** Modelled from the spec: [insert(key, weight)] of the missing engine, the
    strict variant: a key of the wrong shape is rejected, then the range of
    the weight is checked, then the key must be new. *)
Definition engine_insert (k : pykey) (w : pyfloat) (e : engine) : result engine :=
  if negb (key_matches (e_type e) k) then Raise TypeError
  else if negb (weight_in_range (e_min e) (e_max e) w) then Raise (ValueError OutOfRange)
  else match e_items e !! k with
       | Some _ => Raise DuplicateKeyError
       | None => Ok (set_items e (<[k := w]> (e_items e)) (fadd (e_total e) w))
       end.

(** Modelled from the spec: [erase(key)] of the missing engine. *)
Definition engine_erase (k : pykey) (e : engine) : result engine :=
  match e_items e !! k with
  | None => Raise KeyNotFoundError
  | Some w => Ok (set_items e (delete k (e_items e)) (fsub (e_total e) w))
  end.

(** Modelled from the spec: [set_weight(key, weight)] of the missing engine;
    the total changes by the difference of the new and the old weight. *)
Definition engine_set_weight (k : pykey) (w : pyfloat) (e : engine) : result engine :=
  if negb (weight_in_range (e_min e) (e_max e) w) then Raise (ValueError OutOfRange)
  else match e_items e !! k with
       | None => Raise KeyNotFoundError
       | Some old => Ok (set_items e (<[k := w]> (e_items e))
                                   (fadd (e_total e) (fsub w old)))
       end.

(** Modelled from the spec: [count(key)] of the missing engine: the current
    weight, or the absent sentinel; it never fails. *)
Definition engine_count (k : pykey) (e : engine) : option pyfloat := e_items e !! k.

(** Modelled from the spec: [size()] of the missing engine. *)
Definition engine_size (e : engine) : nat := size (e_items e).

(** Modelled from the spec: [total_weight()] of the missing engine. *)
Definition engine_total_weight (e : engine) : pyfloat := e_total e.

(** Modelled from the spec: the weighted choice inside the missing
    [sample()].  It walks the entries, spending the drawn mass [u]; the
    last entry takes whatever is left. *)
Fixpoint pick (u : Q) (l : list (pykey * pyfloat)) : option (pykey * pyfloat) :=
  match l with
  | [] => None
  | (k, w) :: rest =>
      match rest, w with
      | [], _ => Some (k, w)
      | _, Fin q => if Qle_bool u q then Some (k, w) else pick (u - q) rest
      | _, _ => Some (k, w)
      end
  end.

(** Modelled from the spec: [sample()] of the missing engine.  An empty
    container gives the empty sentinel; otherwise one uniform draw selects
    an entry with probability proportional to its weight.  Only the random
    source advances. *)
Definition engine_sample (e : engine) : option (pykey * pyfloat) * engine :=
  if decide (engine_size e = 0) then (None, e)
  else
    let s := rng_next (e_rng e) in
    let u := match e_total e with
             | Fin t => Qred (rng_uniform s * t)
             | _ => 0%Q
             end in
    (pick u (map_to_list (e_items e)), set_rng e s).

(** ** Objects, attributes and the store *)

(** Addresses of objects in the store. *)
Abbreviation loc := nat.

(** Modelled from the spec: the methods of a compiled container object
    (the classes are missing), named after the operations of the contract. *)
Inductive emethod :=
  | m_size
  | m_total_weight
  | m_count
  | m_insert
  | m_set_weight
  | m_erase
  | m_sample.

(** The three classes: the wrapper and the two compiled ones. *)
Inductive pyclass :=
  | SamplableSet
  | IntSamplableSet
  | EdgeSamplableSet.

Global Instance pyclass_eq_dec : EqDecision pyclass.
Proof. solve_decision. Defined.

(** The module-level table of the wrapper. *)
Definition template_classes (t : cpp_kind) : pyclass :=
  match t with
  | type_int => IntSamplableSet
  | type_edge => EdgeSamplableSet
  end.

(** What an attribute of an object can hold: a reference to an object, a
    method of a compiled object bound to it, a function of the wrapper class
    bound to an instance, or a number. *)
Inductive attr :=
  | ARef (l : loc)
  | ABound (l : loc) (m : emethod)
  | AMethod (l : loc) (name : string)
  | AFloat (w : pyfloat).

(** An instance of the wrapper class is its attribute dictionary; a compiled
    object is its engine state. *)
Inductive obj :=
  | OFacade (d : gmap string attr)
  | OEngine (e : engine).

Abbreviation store := (list obj).

Definition class_of (o : obj) : pyclass :=
  match o with
  | OFacade _ => SamplableSet
  | OEngine e => template_classes (e_type e)
  end.

(** Values passed to and returned by calls. *)
Inductive pyval :=
  | VNone
  | VFloat (w : pyfloat)
  | VInt (z : Z)
  | VKey (k : pykey)
  | VPair (k : pykey) (w : pyfloat).

(** [bool(v)]. *)
Definition truthy (v : pyval) : bool :=
  match v with
  | VNone => false
  | VFloat w => float_truthy w
  | VInt z | VKey (KInt z) => negb (z =? 0)%Z
  | VKey (KStr s) => negb (String.eqb s "")
  | VKey _ => true
  | VPair _ _ => true
  end.

(** The functions written in the body of [class SamplableSet]. *)
Definition SamplableSet_functions : list string :=
  [ "__init__"; "__contains__"; "__getitem__"; "__setitem__"; "__delitem__";
    "__str__"; "__repr__"; "__len__"; "copy"; "__deepcopy__"; "__copy__";
    "sample"; "sample_generator" ].

(** Modelled from the spec: the methods the missing compiled classes
    expose, the operations of the container's contract that the wrapper
    calls. *)
Definition engine_methods : list (string * emethod) :=
  [ ("size", m_size); ("total_weight", m_total_weight); ("count", m_count);
    ("insert", m_insert); ("set_weight", m_set_weight); ("erase", m_erase);
    ("sample", m_sample) ].

Fixpoint assoc {A} (name : string) (l : list (string * A)) : option A :=
  match l with
  | [] => None
  | (n, a) :: rest => if String.eqb n name then Some a else assoc name rest
  end.

Definition in_names (name : string) (l : list string) : bool :=
  existsb (String.eqb name) l.

(** The names a class itself defines. *)
Definition class_has (c : pyclass) (name : string) : bool :=
  match c with
  | SamplableSet => in_names name SamplableSet_functions
  | IntSamplableSet | EdgeSamplableSet => bool_decide (is_Some (assoc name engine_methods))
  end.

(** ** Computations on the store *)

Definition M (A : Type) : Type := store -> result A * store.

Definition ret {A} (a : A) : M A := fun h => (Ok a, h).

Definition raise {A} (e : exn) : M A := fun h => (Raise e, h).

Definition bind {A B} (m : M A) (k : A -> M B) : M B :=
  fun h =>
    match m h with
    | (Ok a, h') => k a h'
    | (Raise e, h') => (Raise e, h')
    end.

Notation "x <- m ;; k" := (bind m (fun x => k))
  (at level 100, m at next level, right associativity).
Notation "m ;; k" := (bind m (fun _ => k))
  (at level 100, right associativity).

Definition lift {A} (r : result A) : M A := fun h => (r, h).

(** A new object gets the next free address. *)
Definition alloc (o : obj) : M loc := fun h => (Ok (length h), (h ++ [o])%list).

(** [obj.name]: the instance dictionary first, then the class.  An address
    outside the store is an error; no constructed instance holds one.  The
    attributes every object inherits from [object], all of them named
    with two leading underscores ([__class__], [__dict__], [__eq__], ...),
    are not modelled: the lookup is the one of Python for the names
    without that prefix and for the functions of the class body. *)
Definition getattr (l : loc) (name : string) : M attr :=
  fun h =>
    match h !! l with
    | Some (OFacade d) =>
        match d !! name with
        | Some a => (Ok a, h)
        | None =>
            if class_has SamplableSet name then (Ok (AMethod l name), h)
            else (Raise (AttributeError name), h)
        end
    | Some (OEngine _) =>
        match assoc name engine_methods with
        | Some m => (Ok (ABound l m), h)
        | None => (Raise (AttributeError name), h)
        end
    | None => (Raise TypeError, h)
    end.

(** [v.name] for a value held in an attribute. *)
Definition getattr_of (a : attr) (name : string) : M attr :=
  match a with
  | ARef l => getattr l name
  | _ => raise (AttributeError name)
  end.

(** [setattr(obj, name, value)] on an instance of the wrapper class. *)
Definition setattr (l : loc) (name : string) (a : attr) : M unit :=
  fun h =>
    match h !! l with
    | Some (OFacade d) => (Ok tt, <[l := OFacade (<[name := a]> d)]> h)
    | _ => (Raise TypeError, h)
    end.

Definition sample_value (r : option (pykey * pyfloat)) : pyval :=
  match r with
  | Some (k, w) => VPair k w
  | None => VNone
  end.

Definition count_value (r : option pyfloat) : pyval :=
  match r with
  | Some w => VFloat w
  | None => VNone
  end.

(** Modelled from the spec: a call of a method of the missing compiled
    classes with its arguments; a failed call leaves the container as it
    was. *)
Definition invoke (m : emethod) (args : list pyval) (e : engine)
  : result (pyval * engine) :=
  match m, args with
  | m_size, [] => Ok (VInt (Z.of_nat (engine_size e)), e)
  | m_total_weight, [] => Ok (VFloat (engine_total_weight e), e)
  | m_count, [VKey k] => Ok (count_value (engine_count k e), e)
  | m_insert, [VKey k; VFloat w] =>
      match engine_insert k w e with
      | Ok e' => Ok (VNone, e')
      | Raise x => Raise x
      end
  | m_set_weight, [VKey k; VFloat w] =>
      match engine_set_weight k w e with
      | Ok e' => Ok (VNone, e')
      | Raise x => Raise x
      end
  | m_erase, [VKey k] =>
      match engine_erase k e with
      | Ok e' => Ok (VNone, e')
      | Raise x => Raise x
      end
  | m_sample, [] =>
      let '(r, e') := engine_sample e in Ok (sample_value r, e')
  | _, _ => Raise TypeError
  end.

(** [f(args)] for a value [f] held in an attribute.  The wrapper only ever
    calls bound methods of its compiled object this way; its own functions
    are called directly below. *)
Definition call (a : attr) (args : list pyval) : M pyval :=
  fun h =>
    match a with
    | ABound l m =>
        match h !! l with
        | Some (OEngine e) =>
            match invoke m args e with
            | Ok (v, e') => (Ok v, <[l := OEngine e']> h)
            | Raise x => (Raise x, h)
            end
        | _ => (Raise TypeError, h)
        end
    | _ => (Raise TypeError, h)
    end.

Definition as_float (a : attr) : M pyfloat :=
  match a with
  | AFloat w => ret w
  | _ => raise TypeError
  end.

(** ** The wrapper class [SamplableSet] *)

(** [self.name(args)]: the attribute is looked up, then called. *)
Definition call_attr (self : loc) (name : string) (args : list pyval) : M pyval :=
  f <- getattr self name ;;
  call f args.

(** [__contains__]: [True if self.count(element) else False]. *)
Definition __contains__ (self : loc) (element : pykey) : M bool :=
  v <- call_attr self "count" [VKey element] ;;
  ret (if truthy v then true else false).

(** [__getitem__]: [return self.get_weight(element)]. *)
Definition __getitem__ (self : loc) (element : pykey) : M pyval :=
  call_attr self "get_weight" [VKey element].

(** [self.min_weight <= weight <= self.max_weight], a chained comparison:
    the upper bound is read only if the lower one holds. *)
Definition weight_check (self : loc) (weight : pyfloat) : M bool :=
  a <- getattr self "min_weight" ;;
  lo <- as_float a ;;
  if fle lo weight then
    b <- getattr self "max_weight" ;;
    hi <- as_float b ;;
    ret (fle weight hi)
  else ret false.

(** [__setitem__]. *)
Definition __setitem__ (self : loc) (element : pykey) (weight : pyfloat) : M unit :=
  inside <- weight_check self weight ;;
  if inside then
    present <- __contains__ self element ;;
    if present then
      call_attr self "set_weight" [VKey element; VFloat weight] ;;
      ret tt
    else
      call_attr self "insert" [VKey element; VFloat weight] ;;
      ret tt
  else raise (ValueError OutOfRange).

(** [__delitem__]: [self.erase(element)]. *)
Definition __delitem__ (self : loc) (element : pykey) : M unit :=
  call_attr self "erase" [VKey element] ;;
  ret tt.

(** [__len__]: [return self.size()]. *)
Definition __len__ (self : loc) : M pyval :=
  call_attr self "size" [].

(** [copy]: [type(self._samplable_set)(self._samplable_set)], the copy
    constructor of the class of the compiled object; the result is the new
    compiled object. *)
Definition copy (self : loc) : M loc :=
  s <- getattr self "_samplable_set" ;;
  match s with
  | ARef l =>
      fun h =>
        match h !! l with
        | Some (OEngine e) => alloc (OEngine (engine_copy e)) h
        | _ => (Raise TypeError, h)
        end
  | _ => raise TypeError
  end.

Definition __deepcopy__ (self : loc) : M loc := copy self.

Definition __copy__ (self : loc) : M loc := copy self.

(** [self._samplable_set.sample()]. *)
Definition sample_once (self : loc) : M pyval :=
  s <- getattr self "_samplable_set" ;;
  f <- getattr_of s "sample" ;;
  call f [].

(** A generator made by [sample_generator]: the instance it samples and the
    iterations of [range(n_samples)] still to run.  Nothing is sampled
    before the generator is advanced. *)
Record generator := Generator {
  g_self : loc;
  g_left : nat
}.

Definition sample_generator (self : loc) (n_samples : Z) : generator :=
  Generator self (Z.to_nat n_samples).

(** [next(g)]: the next sample, or [None] once the loop is over. *)
Definition gen_next (g : generator) : M (option pyval * generator) :=
  match g_left g with
  | O => ret (None, g)
  | S n =>
      v <- sample_once (g_self g) ;;
      ret (Some v, Generator (g_self g) n)
  end.

(** Running the loop of the generator to its end. *)
Fixpoint gen_run (self : loc) (left : nat) : M (list pyval) :=
  match left with
  | O => ret []
  | S n =>
      v <- sample_once self ;;
      vs <- gen_run self n ;;
      ret (v :: vs)
  end.

(** [list(g)]. *)
Definition gen_list (g : generator) : M (list pyval) :=
  gen_run (g_self g) (g_left g).

Inductive sample_result :=
  | One (v : pyval)
  | Gen (g : generator).

(** [sample]. *)
Definition sample (self : loc) (n_samples : Z) : M sample_result :=
  if (n_samples =? 1)%Z then
    v <- sample_once self ;;
    ret (One v)
  else ret (Gen (sample_generator self n_samples)).

(** Arguments of a call of [sample]. *)
Inductive pyarg :=
  | ArgInt (z : Z)
  | ArgBool (b : bool).

Definition arg_int (a : pyarg) : Z :=
  match a with
  | ArgInt z => z
  | ArgBool b => Z.b2z b
  end.

(** Binding the arguments of a call to the signature
    [sample(self, n_samples=1)]: any other keyword, a second positional
    argument, or [n_samples] given twice is a [TypeError]. *)
Definition bind_sample_args (args : list pyarg) (kwargs : list (string * pyarg))
  : result Z :=
  match args, kwargs with
  | [], [] => Ok 1%Z
  | [a], [] => Ok (arg_int a)
  | [], [(name, a)] =>
      if String.eqb name "n_samples" then Ok (arg_int a) else Raise TypeError
  | _, _ => Raise TypeError
  end.

(** A call [s.sample(...)] with positional and keyword arguments. *)
Definition call_sample (self : loc) (args : list pyarg)
    (kwargs : list (string * pyarg)) : M sample_result :=
  n_samples <- lift (bind_sample_args args kwargs) ;;
  sample self n_samples.

(** *** Construction *)

(** The [elements_weights] argument: [None], a dict (in insertion order),
    or a pair of sequences. *)
Inductive elements_weights_arg :=
  | ew_none
  | ew_dict (d : list (pykey * pyfloat))
  | ew_pair (elements : list pykey) (weights : list pyfloat).

(** [if elements_weights:]. *)
Definition ew_truthy (ew : elements_weights_arg) : bool :=
  match ew with
  | ew_none => false
  | ew_dict d => negb (bool_decide (d = []))
  | ew_pair _ _ => true
  end.

(** The unpacking at the head of [__init__]. *)
Definition unpack (ew : elements_weights_arg) : list pykey * list pyfloat :=
  match ew with
  | ew_none => ([], [])
  | ew_dict d => (d.*1, d.*2)
  | ew_pair elements weights => (elements, weights)
  end.

(** [next(iter(xs))]. *)
Definition next_iter {A} (xs : list A) : M A :=
  match xs with
  | x :: _ => ret x
  | [] => raise StopIteration
  end.

(** ['int' if first_element is int else 'edge']. *)
Definition infer_cpp_type (first_element : pykey) : cpp_kind :=
  if is_int_type first_element then type_int else type_edge.

(** [template_classes[cpp_type](min_weight, max_weight[, seed])]. *)
Definition construct (c : pyclass) (min_weight max_weight : pyfloat)
    (seed : option Z) : M loc :=
  match c with
  | IntSamplableSet =>
      e <- lift (engine_new type_int min_weight max_weight seed) ;;
      alloc (OEngine e)
  | EdgeSamplableSet =>
      e <- lift (engine_new type_edge min_weight max_weight seed) ;;
      alloc (OEngine e)
  | SamplableSet => raise TypeError
  end.

Definition bound_names : list string :=
  [ "size"; "total_weight"; "count"; "insert"; "set_weight"; "erase" ].

(** The loop [for func_name in [...]: setattr(self, func_name,
    getattr(self._samplable_set, func_name))]. *)
Fixpoint bind_functions (self : loc) (names : list string) : M unit :=
  match names with
  | [] => ret tt
  | func_name :: rest =>
      s <- getattr self "_samplable_set" ;;
      f <- getattr_of s func_name ;;
      setattr self func_name f ;;
      bind_functions self rest
  end.

(** The loop [for element, weight in zip(elements, weights):
    self[element] = weight]. *)
Fixpoint assign_all (self : loc) (pairs : list (pykey * pyfloat)) : M unit :=
  match pairs with
  | [] => ret tt
  | (element, weight) :: rest =>
      __setitem__ self element weight ;;
      assign_all self rest
  end.

(** The head of [__init__], under the comments [# Unpacking],
    [# Infering cpp_type] and [# Validation]: the type to instanciate and,
    when [elements_weights] is given, its first element and weight. *)
Definition unpacking (elements_weights : elements_weights_arg)
    (cpp_type : cpp_kind) : M (cpp_kind * option (pykey * pyfloat)) :=
  let '(elements, weights) := unpack elements_weights in
  if ew_truthy elements_weights then
    first_element <- next_iter elements ;;
    first_weight <- next_iter weights ;;
    let cpp_type := infer_cpp_type first_element in
    if bool_decide (length elements = length weights)
    then ret (cpp_type, Some (first_element, first_weight))
    else raise (ValueError LengthMismatch)
  else ret (cpp_type, None).

(** The middle of [__init__], under [# Instanciate the set]: the compiled
    object, its six methods bound on the instance, and the two bounds. *)
Definition instanciate (self : loc) (min_weight max_weight : pyfloat)
    (seed : option Z) (cpp_type : cpp_kind) : M unit :=
  s <- match seed with
       | None => construct (template_classes cpp_type) min_weight max_weight None
       | Some sd => construct (template_classes cpp_type) min_weight max_weight (Some sd)
       end ;;
  setattr self "_samplable_set" (ARef s) ;;
  bind_functions self bound_names ;;
  setattr self "max_weight" (AFloat max_weight) ;;
  setattr self "min_weight" (AFloat min_weight).

(** The tail of [__init__], under [# Initialize the set]. *)
Definition initialize (self : loc) (elements_weights : elements_weights_arg)
    (first : option (pykey * pyfloat)) : M unit :=
  let '(elements, weights) := unpack elements_weights in
  match first with
  | Some (first_element, first_weight) =>
      __setitem__ self first_element first_weight ;;
      assign_all self (zip elements weights)
  | None => ret tt
  end.

(** [__init__]. *)
Definition __init__ (self : loc) (min_weight max_weight : pyfloat)
    (elements_weights : elements_weights_arg) (seed : option Z)
    (cpp_type : cpp_kind) : M unit :=
  t <- unpacking elements_weights cpp_type ;;
  instanciate self min_weight max_weight seed (fst t) ;;
  initialize self elements_weights (snd t).

(** [SamplableSet(min_weight, max_weight, elements_weights, seed,
    cpp_type)]: a new instance with an empty dictionary, then [__init__]. *)
Definition new_SamplableSet (min_weight max_weight : pyfloat)
    (elements_weights : elements_weights_arg) (seed : option Z)
    (cpp_type : cpp_kind) : M loc :=
  self <- alloc (OFacade ∅) ;;
  __init__ self min_weight max_weight elements_weights seed cpp_type ;;
  ret self.

(** ** A constructed wrapper instance

    The dictionary [__init__] leaves on an instance whose compiled object
    is at [l]: the reference, the six bound methods, the two bounds. *)
Definition facade_dict (l : loc) (mn mx : pyfloat) : gmap string attr :=
  <["min_weight" := AFloat mn]>
    (<["max_weight" := AFloat mx]>
      (<["erase" := ABound l m_erase]>
        (<["set_weight" := ABound l m_set_weight]>
          (<["insert" := ABound l m_insert]>
            (<["count" := ABound l m_count]>
              (<["total_weight" := ABound l m_total_weight]>
                (<["size" := ABound l m_size]>
                  (<["_samplable_set" := ARef l]> ∅)))))))).

(** The store holds at [self] a constructed instance whose compiled object,
    at [l], is in state [e]. *)
Record facade_at (h : store) (self l : loc) (e : engine) : Prop := {
  fa_self : h !! self = Some (OFacade (facade_dict l (e_min e) (e_max e)));
  fa_engine : h !! l = Some (OEngine e)
}.

(** The invariant of a compiled container: valid bounds, a finite total in
    lowest terms, and every stored key of the container's variant with a
    weight inside the bounds. *)
Record engine_ok (e : engine) : Prop := {
  ok_bounds : valid_bounds (e_min e) (e_max e) = true;
  ok_total : exists t, e_total e = Fin (Qred t);
  ok_items : forall k w, e_items e !! k = Some w ->
      key_matches (e_type e) k = true /\
      weight_in_range (e_min e) (e_max e) w = true
}.

(** Two fractions with the same numerator and the same denominator. *)
Definition same_fraction (a b : Q) : bool :=
  (Qnum a =? Qnum b)%Z && (Qden a =? Qden b)%positive.

(** The same invariant as a check that can be run. *)
Definition engine_okb (e : engine) : bool :=
  valid_bounds (e_min e) (e_max e) &&
  match e_total e with
  | Fin t => same_fraction (Qred t) t
  | _ => false
  end &&
  forallb (fun kw => key_matches (e_type e) kw.1 &&
                     weight_in_range (e_min e) (e_max e) kw.2)
          (map_to_list (e_items e)).

(** What [s[element] = weight] does to the compiled container when it goes
    through. *)
Definition upsert (k : pykey) (w : pyfloat) (e : engine) : engine :=
  match e_items e !! k with
  | Some old => set_items e (<[k := w]> (e_items e)) (fadd (e_total e) (fsub w old))
  | None => set_items e (<[k := w]> (e_items e)) (fadd (e_total e) w)
  end.

(** The assignments [s[k] = w] for the pairs of a list, in order. *)
Definition upsert_all (pairs : list (pykey * pyfloat)) (e : engine) : engine :=
  foldl (fun e kw => upsert kw.1 kw.2 e) e pairs.

(** Two states of a container with the same bounds and key variant. *)
Definition same_config (e e' : engine) : Prop :=
  e_min e' = e_min e /\ e_max e' = e_max e /\ e_type e' = e_type e.

(** ** A run of the wrapper

    [s = SamplableSet(1, 10); s[5] = 2.] from an empty store: the instance
    is at address 0 and its compiled object at address 1. *)
Definition demo_run : result unit * store :=
  (s <- new_SamplableSet (Fin 1) (Fin 10) ew_none None type_int ;;
   __setitem__ s (KInt 5) (Fin 2)) [].

Definition demo_store : store := snd demo_run.

Definition demo_engine : engine :=
  Engine type_int (Fin 1) (Fin 10) {[KInt 5 := Fin 2]} (Fin 2) 5489.

(** A result of sampling a container with contents [m]: the empty sentinel
    when there is nothing to draw, a stored pair otherwise. *)
Definition drawn_from (m : gmap pykey pyfloat) (v : pyval) : Prop :=
  match v with
  | VNone => m = ∅
  | VPair k w => m !! k = Some w
  | _ => False
  end.

(** The dict-style operations and the two attributes that only the wrapper
    class gives to its instances. *)
Definition facade_only_names : list string :=
  [ "__getitem__"; "__setitem__"; "__delitem__"; "__contains__"; "__len__";
    "min_weight"; "max_weight" ].

(** The dict of the test [test_dict_init]: [{3: 33.3, 6: 66.6}]. *)
Definition test_dict : list (pykey * pyfloat) :=
  [ (KInt 3, Fin 33.3); (KInt 6, Fin 66.6) ].

(** A dict with two edges as keys. *)
Definition edge_dict : list (pykey * pyfloat) :=
  [ (KTriple 1 2 3, Fin 33.3); (KTriple 4 5 6, Fin 66.6) ].

(** ** Calls that change a container

    On a compiled object: its own methods.  On an instance of the wrapper:
    the dict-style assignment and deletion, the bound methods, and
    sampling, whose generator is run to its end. *)
Inductive engine_call :=
  | ec_insert (k : pykey) (w : pyfloat)
  | ec_set_weight (k : pykey) (w : pyfloat)
  | ec_erase (k : pykey)
  | ec_sample.

Inductive facade_call :=
  | fc_setitem (k : pykey) (w : pyfloat)
  | fc_delitem (k : pykey)
  | fc_insert (k : pykey) (w : pyfloat)
  | fc_set_weight (k : pykey) (w : pyfloat)
  | fc_erase (k : pykey)
  | fc_sample (n : Z).

Definition ec_name (c : engine_call) : string :=
  match c with
  | ec_insert _ _ => "insert"
  | ec_set_weight _ _ => "set_weight"
  | ec_erase _ => "erase"
  | ec_sample => "sample"
  end.

Definition ec_method (c : engine_call) : emethod :=
  match c with
  | ec_insert _ _ => m_insert
  | ec_set_weight _ _ => m_set_weight
  | ec_erase _ => m_erase
  | ec_sample => m_sample
  end.

Definition ec_args (c : engine_call) : list pyval :=
  match c with
  | ec_insert k w | ec_set_weight k w => [VKey k; VFloat w]
  | ec_erase k => [VKey k]
  | ec_sample => []
  end.

(** [c.name(args)] on the compiled object at [c]. *)
Definition run_engine_call (c : loc) (ec : engine_call) : M unit :=
  call_attr c (ec_name ec) (ec_args ec) ;; ret tt.

Definition run_facade_call (self : loc) (fc : facade_call) : M unit :=
  match fc with
  | fc_setitem k w => __setitem__ self k w
  | fc_delitem k => __delitem__ self k
  | fc_insert k w => call_attr self "insert" [VKey k; VFloat w] ;; ret tt
  | fc_set_weight k w => call_attr self "set_weight" [VKey k; VFloat w] ;; ret tt
  | fc_erase k => call_attr self "erase" [VKey k] ;; ret tt
  | fc_sample n =>
      r <- sample self n ;;
      match r with
      | One _ => ret tt
      | Gen g => gen_list g ;; ret tt
      end
  end.

(** A call on the instance or on the object its [copy()] returned. *)
Inductive action :=
  | on_original (fc : facade_call)
  | on_clone (ec : engine_call).

Definition targets_original (a : action) : bool :=
  match a with
  | on_original _ => true
  | on_clone _ => false
  end.

Definition targets_clone (a : action) : bool := negb (targets_original a).

Definition run_action (self clone : loc) (a : action) : M unit :=
  match a with
  | on_original fc => run_facade_call self fc
  | on_clone ec => run_engine_call clone ec
  end.

(** A sequence of calls; a call that raises does not stop the ones after
    it, as when the caller catches the exception. *)
Fixpoint run_actions (self clone : loc) (acts : list action) (h : store) : store :=
  match acts with
  | [] => h
  | a :: rest => run_actions self clone rest (snd (run_action self clone a h))
  end.

(** What a method call leaves of a container, as a function of the
    container alone. *)
Definition effect (m : emethod) (args : list pyval) (e : engine) : engine :=
  match invoke m args e with
  | Ok (_, e') => e'
  | Raise _ => e
  end.

Fixpoint sample_times (n : nat) (e : engine) : engine :=
  match n with
  | O => e
  | S n => sample_times n (snd (engine_sample e))
  end.

Definition facade_effect (fc : facade_call) (e : engine) : engine :=
  match fc with
  | fc_setitem k w =>
      if weight_in_range (e_min e) (e_max e) w then
        if truthy (count_value (engine_count k e))
        then effect m_set_weight [VKey k; VFloat w] e
        else effect m_insert [VKey k; VFloat w] e
      else e
  | fc_delitem k | fc_erase k => effect m_erase [VKey k] e
  | fc_insert k w => effect m_insert [VKey k; VFloat w] e
  | fc_set_weight k w => effect m_set_weight [VKey k; VFloat w] e
  | fc_sample n =>
      if (n =? 1)%Z then snd (engine_sample e)
      else sample_times (Z.to_nat n) e
  end.

Definition after_actions (acts : list action) (e1 e2 : engine) : engine * engine :=
  foldl (fun es a =>
           match a with
           | on_original fc => (facade_effect fc es.1, es.2)
           | on_clone ec => (es.1, effect (ec_method ec) (ec_args ec) es.2)
           end) (e1, e2) acts.

(** ** Printing

    [len(obj)] is the result of [__len__], which has to be an integer and
    not a negative one. *)
Definition builtin_len (self : loc) : M Z :=
  v <- __len__ self ;;
  match v with
  | VInt z => if (z <? 0)%Z then raise (ValueError OutOfRange) else ret z
  | _ => raise TypeError
  end.

(** [__str__]: the formatted text is built first, with one call of
    [len(self)], then the ending is chosen with a second call. *)
Definition __str__ (self : loc) : M string :=
  n <- builtin_len self ;;
  m <- builtin_len self ;;
  ret ("SamplableSet of " +:+ pretty n +:+ " element" +:+
       (if (1 <? m)%Z then "s" else "")).

(** [__repr__]: [return str(self)]. *)
Definition __repr__ (self : loc) : M string := __str__ self.

(** The text [__str__] gives for a container of [n] elements. *)
Definition description (n : nat) : string :=
  "SamplableSet of " +:+ pretty (Z.of_nat n) +:+ " element" +:+
  (if decide (1 < n) then "s" else "").

(** ** Attribute names

    The names [__init__] sets on an instance. *)
Definition instance_names : list string :=
  [ "_samplable_set"; "size"; "total_weight"; "count"; "insert"; "set_weight";
    "erase"; "max_weight"; "min_weight" ].

(** The names with two leading underscores, among them all that [object]
    provides. *)
Definition is_dunder (name : string) : bool := String.prefix "__" name.

(** ** Repeated elements

    The weight a list of pairs gives a key: the one of its last
    occurrence. *)
Definition last_weights (pairs : list (pykey * pyfloat)) : gmap pykey pyfloat :=
  list_to_map (reverse pairs).

(** * Properties *)

(** ** Numbers *)

Lemma in_range_truthy mn mx w :
  valid_bounds mn mx = true -> weight_in_range mn mx w = true ->
  float_truthy w = true.
Proof.
  unfold valid_bounds, weight_in_range.
  rewrite !andb_true_iff. intros [[H0 _] _] [Hlo _].
  destruct mn as [a| | |], w as [b| | |]; simpl in *; try done.
  apply negb_true_iff in H0. apply negb_true_iff.
  apply Qle_bool_iff in Hlo.
  destruct (Qeq_bool b 0) eqn:Hb; [|done].
  apply Qeq_bool_iff in Hb.
  assert (Qle_bool a 0 = true); [|congruence].
  apply Qle_bool_iff. rewrite <- Hb. exact Hlo.
Qed.

Lemma in_range_finite mn mx w :
  valid_bounds mn mx = true -> weight_in_range mn mx w = true ->
  exists q, w = Fin q.
Proof.
  unfold valid_bounds, weight_in_range. rewrite !andb_true_iff.
  intros [[H0 H1] H2] [Hlo Hhi].
  destruct mn, mx, w; simpl in *; try done; eauto.
Qed.

(** The bounds are valid exactly when both are finite and
    [0 < min_weight < max_weight]. *)
Lemma valid_bounds_spec mn mx :
  valid_bounds mn mx = true <->
  exists a b, mn = Fin a /\ mx = Fin b /\ (0 < a)%Q /\ (a < b)%Q.
Proof.
  unfold valid_bounds. rewrite !andb_true_iff. split.
  - intros [[H0 H1] H2].
    destruct mn as [a| | |], mx as [b| | |]; simpl in *; try done.
    exists a, b. apply negb_true_iff in H0, H1.
    repeat split; apply Qnot_le_lt; intros Hle;
      apply Qle_bool_iff in Hle; congruence.
  - intros (a & b & -> & -> & Ha & Hab). simpl.
    repeat split; try done; apply negb_true_iff;
      destruct (Qle_bool _ _) eqn:Hle; try done;
      apply Qle_bool_iff in Hle; by apply Qle_not_lt in Hle.
Qed.

Lemma Qred_Qred q : Qred (Qred q) = Qred q.
Proof. apply Qred_complete, Qred_correct. Qed.

Lemma fadd_fsub_same t q :
  fadd (Fin (Qred t)) (fsub (Fin q) (Fin q)) = Fin (Qred t).
Proof.
  simpl. f_equal. apply Qred_complete.
  rewrite !Qred_correct. ring.
Qed.

Lemma engine_okb_ok e : engine_okb e = true -> engine_ok e.
Proof.
  unfold engine_okb. rewrite !andb_true_iff, forallb_forall.
  intros [[Hb Ht] Hi]. split; [done| |].
  - destruct (e_total e) as [t| | |]; try done.
    exists t. f_equal. unfold same_fraction in Ht.
    apply andb_true_iff in Ht as [Hn Hd].
    apply Z.eqb_eq in Hn. apply Pos.eqb_eq in Hd.
    destruct (Qred t), t; simpl in *; congruence.
  - intros k w Hk. apply andb_true_iff.
    apply (Hi (k, w)). apply list_elem_of_In. by apply elem_of_map_to_list.
Qed.

(** ** The store *)

Lemma bind_ok {A B} (m : M A) (k : A -> M B) h a h' :
  m h = (Ok a, h') -> bind m k h = k a h'.
Proof. unfold bind. by intros ->. Qed.

Lemma bind_raise {A B} (m : M A) (k : A -> M B) h x h' :
  m h = (Raise x, h') -> bind m k h = (Raise x, h').
Proof. unfold bind. by intros ->. Qed.

Lemma getattr_facade h self l mn mx name a :
  h !! self = Some (OFacade (facade_dict l mn mx)) ->
  facade_dict l mn mx !! name = Some a ->
  getattr self name h = (Ok a, h).
Proof. unfold getattr. by intros -> ->. Qed.

Lemma getattr_engine h l e name m :
  h !! l = Some (OEngine e) ->
  assoc name engine_methods = Some m ->
  getattr l name h = (Ok (ABound l m), h).
Proof. unfold getattr. by intros -> ->. Qed.

Lemma call_ok h l e m args v e' :
  h !! l = Some (OEngine e) ->
  invoke m args e = Ok (v, e') ->
  call (ABound l m) args h = (Ok v, <[l := OEngine e']> h).
Proof. unfold call. by intros -> ->. Qed.

Lemma call_raise h l e m args x :
  h !! l = Some (OEngine e) ->
  invoke m args e = Raise x ->
  call (ABound l m) args h = (Raise x, h).
Proof. unfold call. by intros -> ->. Qed.

Lemma store_insert_id (h : store) l o : h !! l = Some o -> <[l := o]> h = h.
Proof. apply list_insert_id. Qed.

Lemma facade_at_neq h self l e : facade_at h self l e -> self <> l.
Proof. intros [H1 H2] ->. congruence. Qed.

Lemma facade_at_update h self l e e' :
  facade_at h self l e -> e_min e' = e_min e -> e_max e' = e_max e ->
  facade_at (<[l := OEngine e']> h) self l e'.
Proof.
  intros Hf Hmin Hmax. pose proof (facade_at_neq _ _ _ _ Hf) as Hne.
  destruct Hf as [H1 H2]. split.
  - rewrite list_lookup_insert_ne by done. by rewrite Hmin, Hmax.
  - apply list_lookup_insert_eq. by eapply lookup_lt_Some.
Qed.

(** ** The compiled container keeps its invariant *)

Lemma upsert_items k w e : e_items (upsert k w e) = <[k := w]> (e_items e).
Proof. unfold upsert. by destruct (e_items e !! k). Qed.

Lemma upsert_bounds k w e :
  e_min (upsert k w e) = e_min e /\ e_max (upsert k w e) = e_max e /\
  e_type (upsert k w e) = e_type e.
Proof. unfold upsert. by destruct (e_items e !! k). Qed.

Lemma upsert_ok k w e :
  engine_ok e -> key_matches (e_type e) k = true ->
  weight_in_range (e_min e) (e_max e) w = true ->
  engine_ok (upsert k w e).
Proof.
  intros [Hb [t Ht] Hi] Hk Hw.
  destruct (upsert_bounds k w e) as (Hmin & Hmax & Hty).
  destruct (in_range_finite _ _ _ Hb Hw) as [q ->].
  split; rewrite ?Hmin, ?Hmax, ?Hty; [done| |].
  - unfold upsert. rewrite Ht.
    destruct (e_items e !! k) as [old|] eqn:Hold; simpl; [|eauto].
    destruct (Hi _ _ Hold) as [_ Hr].
    destruct (in_range_finite _ _ _ Hb Hr) as [o ->]. simpl. eauto.
  - intros k' w'. rewrite upsert_items, lookup_insert.
    case_decide as Hkk; [|by apply Hi].
    intros [= <-]. by subst k'.
Qed.

Lemma upsert_twice k w e :
  engine_ok e -> key_matches (e_type e) k = true ->
  weight_in_range (e_min e) (e_max e) w = true ->
  upsert k w (upsert k w e) = upsert k w e.
Proof.
  intros Hok Hk Hw.
  destruct (upsert_ok k w e Hok Hk Hw) as [_ [t Ht] _].
  destruct (in_range_finite _ _ _ (ok_bounds _ Hok) Hw) as [q ->].
  unfold upsert at 1. rewrite upsert_items, lookup_insert_eq, insert_insert_eq.
  rewrite Ht, fadd_fsub_same, <- Ht, <- upsert_items.
  unfold set_items. by destruct (upsert k (Fin q) e).
Qed.

Lemma engine_new_ok t mn mx seed e :
  engine_new t mn mx seed = Ok e ->
  engine_ok e /\ e_min e = mn /\ e_max e = mx /\ e_type e = t /\ e_items e = ∅.
Proof.
  unfold engine_new. destruct (valid_bounds mn mx) eqn:Hb; [|done].
  intros [= <-]. repeat split; simpl; try done.
  by exists 0%Q.
Qed.

Lemma engine_insert_config k w e e' : engine_insert k w e = Ok e' -> same_config e e'.
Proof.
  unfold engine_insert. repeat case_match; try done. by intros [= <-].
Qed.

Lemma engine_set_weight_config k w e e' :
  engine_set_weight k w e = Ok e' -> same_config e e'.
Proof.
  unfold engine_set_weight. repeat case_match; try done. by intros [= <-].
Qed.

Lemma engine_erase_config k e e' : engine_erase k e = Ok e' -> same_config e e'.
Proof.
  unfold engine_erase. repeat case_match; try done. by intros [= <-].
Qed.

Lemma engine_sample_config e : same_config e (snd (engine_sample e)).
Proof. unfold engine_sample. by case_decide. Qed.

Lemma engine_sample_items e :
  e_items (snd (engine_sample e)) = e_items e /\
  e_total (snd (engine_sample e)) = e_total e.
Proof. unfold engine_sample. by case_decide. Qed.

Lemma engine_sample_empty e :
  engine_size e = 0 -> engine_sample e = (None, e).
Proof. unfold engine_sample. intros ->. done. Qed.

Lemma invoke_config m args e v e' :
  invoke m args e = Ok (v, e') -> same_config e e'.
Proof.
  unfold invoke. intros H.
  repeat case_match; simplify_eq; try done;
    eauto using engine_insert_config, engine_set_weight_config,
      engine_erase_config.
  match goal with
  | Hs : engine_sample e = _ |- _ =>
      pose proof (engine_sample_config e) as Hc; by rewrite Hs in Hc
  end.
Qed.

(** ** Reading and routing in the wrapper *)

Section constructed.
Context (h : store) (self l : loc) (e : engine).
Context (Hf : facade_at h self l e).

Lemma attr_of name a :
  facade_dict l (e_min e) (e_max e) !! name = Some a ->
  getattr self name h = (Ok a, h).
Proof. destruct Hf. by apply getattr_facade. Qed.

Lemma weight_check_spec w :
  weight_check self w h = (Ok (weight_in_range (e_min e) (e_max e) w), h).
Proof.
  unfold weight_check, weight_in_range.
  rewrite (bind_ok _ _ _ _ _ (attr_of "min_weight" _ eq_refl)).
  simpl. unfold bind at 1. simpl.
  destruct (fle (e_min e) w); [|done].
  by rewrite (bind_ok _ _ _ _ _ (attr_of "max_weight" _ eq_refl)).
Qed.

Lemma call_attr_ok name m args v e' :
  facade_dict l (e_min e) (e_max e) !! name = Some (ABound l m) ->
  invoke m args e = Ok (v, e') ->
  call_attr self name args h = (Ok v, <[l := OEngine e']> h).
Proof.
  intros Hn Hi. unfold call_attr. rewrite (bind_ok _ _ _ _ _ (attr_of _ _ Hn)).
  eapply call_ok; [apply Hf|done].
Qed.

Lemma call_attr_raise name m args x :
  facade_dict l (e_min e) (e_max e) !! name = Some (ABound l m) ->
  invoke m args e = Raise x ->
  call_attr self name args h = (Raise x, h).
Proof.
  intros Hn Hi. unfold call_attr. rewrite (bind_ok _ _ _ _ _ (attr_of _ _ Hn)).
  eapply call_raise; [apply Hf|done].
Qed.

Lemma call_attr_missing name args :
  facade_dict l (e_min e) (e_max e) !! name = None ->
  class_has SamplableSet name = false ->
  call_attr self name args h = (Raise (AttributeError name), h).
Proof.
  intros Hn Hc. unfold call_attr. apply bind_raise.
  unfold getattr. destruct Hf as [-> _]. by rewrite Hn, Hc.
Qed.

Lemma count_spec k :
  call_attr self "count" [VKey k] h = (Ok (count_value (e_items e !! k)), h).
Proof.
  erewrite call_attr_ok; [|reflexivity..].
  by rewrite store_insert_id by apply Hf.
Qed.

Lemma contains_spec k :
  __contains__ self k h =
    (Ok (match e_items e !! k with
         | Some w => float_truthy w
         | None => false
         end), h).
Proof.
  unfold __contains__. rewrite (bind_ok _ _ _ _ _ (count_spec k)).
  unfold ret. by destruct (e_items e !! k) as [w|]; simpl;
    [destruct (float_truthy w)|].
Qed.

Lemma contains_ok_spec k :
  engine_ok e ->
  __contains__ self k h = (Ok (bool_decide (is_Some (e_items e !! k))), h).
Proof.
  intros [Hb _ Hi]. rewrite contains_spec.
  destruct (e_items e !! k) as [w|] eqn:Hk; [|done].
  destruct (Hi _ _ Hk) as [_ Hw].
  by rewrite (in_range_truthy _ _ _ Hb Hw).
Qed.

Lemma setitem_rejects k w :
  weight_in_range (e_min e) (e_max e) w = false ->
  __setitem__ self k w h = (Raise (ValueError OutOfRange), h).
Proof.
  intros Hw. unfold __setitem__.
  by rewrite (bind_ok _ _ _ _ _ (weight_check_spec w)), Hw.
Qed.

Lemma setitem_routes k w :
  engine_ok e ->
  weight_in_range (e_min e) (e_max e) w = true ->
  __setitem__ self k w h =
    match e_items e !! k with
    | Some _ => (call_attr self "set_weight" [VKey k; VFloat w] ;; ret tt) h
    | None => (call_attr self "insert" [VKey k; VFloat w] ;; ret tt) h
    end.
Proof.
  intros Hok Hw. unfold __setitem__.
  rewrite (bind_ok _ _ _ _ _ (weight_check_spec w)), Hw.
  rewrite (bind_ok _ _ _ _ _ (contains_ok_spec k Hok)).
  by destruct (e_items e !! k) as [old|].
Qed.

Lemma setitem_spec k w :
  engine_ok e ->
  key_matches (e_type e) k = true ->
  weight_in_range (e_min e) (e_max e) w = true ->
  __setitem__ self k w h = (Ok tt, <[l := OEngine (upsert k w e)]> h).
Proof.
  intros Hok Hk Hw. rewrite setitem_routes by done.
  unfold upsert. destruct (e_items e !! k) as [old|] eqn:Hl.
  - erewrite bind_ok; [done|]. eapply call_attr_ok; [reflexivity|].
    simpl. unfold engine_set_weight. by rewrite Hw, Hl.
  - erewrite bind_ok; [done|]. eapply call_attr_ok; [reflexivity|].
    simpl. unfold engine_insert. by rewrite Hk, Hw, Hl.
Qed.

Lemma getitem_spec k :
  __getitem__ self k h = (Raise (AttributeError "get_weight"), h).
Proof. unfold __getitem__. by apply call_attr_missing. Qed.

Lemma sample_once_spec :
  sample_once self h =
    (Ok (sample_value (fst (engine_sample e))),
     <[l := OEngine (snd (engine_sample e))]> h).
Proof.
  unfold sample_once.
  rewrite (bind_ok _ _ _ _ _ (attr_of "_samplable_set" _ eq_refl)).
  simpl. erewrite bind_ok; [|by eapply getattr_engine; [apply Hf|]].
  eapply call_ok; [apply Hf|]. simpl. by destruct (engine_sample e).
Qed.

Lemma copy_spec :
  copy self h = (Ok (length h), (h ++ [OEngine (engine_copy e)])%list).
Proof.
  unfold copy.
  rewrite (bind_ok _ _ _ _ _ (attr_of "_samplable_set" _ eq_refl)).
  by destruct Hf as [_ ->].
Qed.
End constructed.

(** ** Construction *)

Lemma setattr_spec (h : store) self d name a :
  h !! self = Some (OFacade d) ->
  setattr self name a h = (Ok tt, <[self := OFacade (<[name := a]> d)]> h).
Proof. unfold setattr. by intros ->. Qed.

Lemma setattr_again (h : store) self d name a :
  self < length h ->
  setattr self name a (<[self := OFacade d]> h) =
    (Ok tt, <[self := OFacade (<[name := a]> d)]> h).
Proof.
  intros Hlt. erewrite setattr_spec by by apply list_lookup_insert_eq.
  by rewrite list_insert_insert_eq.
Qed.

Lemma bind_functions_step (h : store) self l e d name m rest :
  self < length h -> self <> l -> h !! l = Some (OEngine e) ->
  d !! "_samplable_set" = Some (ARef l) ->
  assoc name engine_methods = Some m ->
  bind_functions self (name :: rest) (<[self := OFacade d]> h) =
    bind_functions self rest (<[self := OFacade (<[name := ABound l m]> d)]> h).
Proof.
  intros Hlt Hne Hl Hd Hm. simpl.
  erewrite bind_ok; cycle 1.
  { unfold getattr. rewrite list_lookup_insert_eq by done. by rewrite Hd. }
  simpl. erewrite bind_ok; cycle 1.
  { eapply getattr_engine; [|done]. by rewrite list_lookup_insert_ne. }
  erewrite bind_ok; [done|]. by apply setattr_again.
Qed.

Lemma instanciate_spec (h : store) self mn mx seed t :
  h !! self = Some (OFacade ∅) -> valid_bounds mn mx = true ->
  instanciate self mn mx seed t h =
    (Ok tt, <[self := OFacade (facade_dict (length h) mn mx)]>
              (h ++ [OEngine (Engine t mn mx ∅ fzero (rng_seed seed))])).
Proof.
  intros Hs Hb. unfold instanciate.
  set (e := Engine t mn mx ∅ fzero (rng_seed seed)).
  set (h1 := (h ++ [OEngine e])%list).
  assert (Hlt : self < length h) by by eapply lookup_lt_Some.
  assert (Hlt1 : self < length h1).
  { unfold h1. rewrite length_app. lia. }
  assert (Hne : self <> length h) by lia.
  assert (Hl : h1 !! length h = Some (OEngine e)).
  { unfold h1. by rewrite lookup_app_r, Nat.sub_diag by lia. }
  assert (Hc : (match seed with
                | None => construct (template_classes t) mn mx None
                | Some sd => construct (template_classes t) mn mx (Some sd)
                end) h = (Ok (length h), h1)).
  { assert (construct (template_classes t) mn mx seed h = (Ok (length h), h1))
      as Hc; [|by destruct seed].
    unfold construct, engine_new, lift, bind.
    destruct t; simpl; by rewrite Hb. }
  rewrite (bind_ok _ _ _ _ _ Hc).
  assert (Hs1 : h1 !! self = Some (OFacade ∅)).
  { unfold h1. by rewrite lookup_app_l. }
  erewrite bind_ok by by apply setattr_spec.
  unfold bound_names.
  erewrite bind_ok; cycle 1.
  { do 6 (erewrite bind_functions_step; [|done..]). reflexivity. }
  erewrite bind_ok by by apply setattr_again.
  by rewrite setattr_again.
Qed.

Lemma instanciate_fails (h : store) self mn mx seed t :
  valid_bounds mn mx = false ->
  instanciate self mn mx seed t h = (Raise (ValueError OutOfRange), h).
Proof.
  intros Hb. unfold instanciate. apply bind_raise.
  assert (construct (template_classes t) mn mx seed h =
            (Raise (ValueError OutOfRange), h)) as Hc; [|by destruct seed].
  unfold construct, engine_new, lift, bind. destruct t; simpl; by rewrite Hb.
Qed.

Lemma instanciate_facade_at (h : store) self mn mx seed t :
  h !! self = Some (OFacade ∅) -> valid_bounds mn mx = true ->
  exists h' e,
    instanciate self mn mx seed t h = (Ok tt, h') /\
    facade_at h' self (length h) e /\ engine_ok e /\
    e = Engine t mn mx ∅ fzero (rng_seed seed) /\
    length h' = S (length h) /\
    (forall i, i < length h -> i <> self -> h' !! i = h !! i).
Proof.
  intros Hs Hb. eexists _, (Engine t mn mx ∅ fzero (rng_seed seed)).
  split; [by apply instanciate_spec|].
  assert (Hlt : self < length h) by by eapply lookup_lt_Some.
  split; [split|]; simpl.
  - apply list_lookup_insert_eq. rewrite length_app. lia.
  - rewrite list_lookup_insert_ne by lia.
    by rewrite lookup_app_r, Nat.sub_diag by lia.
  - split; [|split; [done|split]].
    + split; simpl; [done|by exists 0%Q|done].
    + rewrite length_insert, length_app. simpl. lia.
    + intros i Hi Hne. rewrite list_lookup_insert_ne by done.
      by rewrite lookup_app_l.
Qed.

(** ** Sampling in the compiled container *)

Lemma pick_elem u l kw : pick u l = Some kw -> kw ∈ l.
Proof.
  revert u. induction l as [|[k w] rest IH]; intros u; simpl; [done|].
  destruct rest as [|x rest'].
  - intros [= <-]. apply list_elem_of_here.
  - destruct w as [q| | |]; try (intros [= <-]; apply list_elem_of_here).
    destruct (Qle_bool u q); [intros [= <-]; apply list_elem_of_here|].
    intros H. apply list_elem_of_further. by eapply IH.
Qed.

Lemma pick_none u l : pick u l = None -> l = [].
Proof.
  revert u. induction l as [|[k w] rest IH]; intros u; simpl; [done|].
  destruct rest as [|x rest']; [done|].
  destruct w as [q| | |]; try done.
  destruct (Qle_bool u q); [done|]. intros H. by apply IH in H.
Qed.

Lemma engine_sample_stored e k w :
  fst (engine_sample e) = Some (k, w) -> e_items e !! k = Some w.
Proof.
  unfold engine_sample. case_decide as Hs; simpl; [done|].
  intros Hp. apply pick_elem in Hp. by apply elem_of_map_to_list in Hp.
Qed.

Lemma engine_sample_sentinel e :
  fst (engine_sample e) = None <-> engine_size e = 0.
Proof.
  unfold engine_sample, engine_size. case_decide as Hs; simpl; [done|].
  split; [|done]. intros Hp. apply pick_none in Hp.
  apply map_to_list_empty_iff in Hp. rewrite Hp in Hs.
  by rewrite map_size_empty in Hs.
Qed.

(** ** The run used as an example *)

Lemma demo_facade_at : facade_at demo_store 0 1 demo_engine.
Proof. split; vm_compute; reflexivity. Qed.

Lemma demo_engine_ok : engine_ok demo_engine.
Proof. apply engine_okb_ok. vm_compute. reflexivity. Qed.

(** ** Dict-style access *)

Section access.
Context (h : store) (self l : loc) (e : engine).
Context (Hf : facade_at h self l e).

Lemma len_spec :
  __len__ self h = (Ok (VInt (Z.of_nat (engine_size e))), h).
Proof.
  unfold __len__. erewrite call_attr_ok; [|done|reflexivity..].
  by rewrite store_insert_id by apply Hf.
Qed.

Lemma total_weight_spec :
  call_attr self "total_weight" [] h = (Ok (VFloat (e_total e)), h).
Proof.
  erewrite call_attr_ok; [|done|reflexivity..].
  by rewrite store_insert_id by apply Hf.
Qed.
End access.

(** C1, for the keys the container can hold: for a weight inside
    [min_weight, max_weight], [s[key] = w] calls [set_weight] when the key
    is present and [insert] when it is absent (this for every key); for a
    key of the container's variant, an integer for ['int'] and a triple
    for ['edge'], the call succeeds, and afterwards [s.count(key)] is [w]
    and [key in s] holds. *)
Theorem setitem_upsert (h : store) (self l : loc) (e : engine)
    (k : pykey) (w : pyfloat) :
  facade_at h self l e -> engine_ok e ->
  weight_in_range (e_min e) (e_max e) w = true ->
  __setitem__ self k w h =
    (if bool_decide (is_Some (e_items e !! k))
     then (call_attr self "set_weight" [VKey k; VFloat w] ;; ret tt) h
     else (call_attr self "insert" [VKey k; VFloat w] ;; ret tt) h) /\
  (key_matches (e_type e) k = true ->
   exists h',
     __setitem__ self k w h = (Ok tt, h') /\
     call_attr self "count" [VKey k] h' = (Ok (VFloat w), h') /\
     __contains__ self k h' = (Ok true, h')).
Proof.
  intros Hf Hok Hw. split.
  - rewrite (setitem_routes _ _ _ _ Hf) by done.
    by destruct (e_items e !! k).
  - intros Hk. eexists. split; [by apply (setitem_spec _ _ _ _ Hf)|].
    destruct (upsert_bounds k w e) as (Hmin & Hmax & _).
    pose proof (facade_at_update _ _ _ _ (upsert k w e) Hf Hmin Hmax) as Hf'.
    pose proof (upsert_ok k w e Hok Hk Hw) as Hok'.
    rewrite (count_spec _ _ _ _ Hf'), (contains_ok_spec _ _ _ _ Hf' k Hok').
    by rewrite upsert_items, lookup_insert_eq.
Qed.

Lemma setitem_upsert_witness :
  facade_at demo_store 0 1 demo_engine /\
  (exists h',
     __setitem__ 0 (KInt 7) (Fin 3) demo_store = (Ok tt, h') /\
     call_attr 0 "count" [VKey (KInt 7)] h' = (Ok (VFloat (Fin 3)), h') /\
     __contains__ 0 (KInt 7) h' = (Ok true, h')) /\
  (exists h',
     __setitem__ 0 (KInt 5) (Fin 3) demo_store = (Ok tt, h') /\
     call_attr 0 "count" [VKey (KInt 5)] h' = (Ok (VFloat (Fin 3)), h') /\
     __contains__ 0 (KInt 5) h' = (Ok true, h')).
Proof.
  assert (Hf : facade_at demo_store 0 1 demo_engine)
    by (split; vm_compute; reflexivity).
  assert (Hok : engine_ok demo_engine)
    by (apply engine_okb_ok; vm_compute; reflexivity).
  split; [exact Hf|]. split.
  - apply (setitem_upsert demo_store 0 1 demo_engine (KInt 7) (Fin 3) Hf Hok).
    + reflexivity.
    + reflexivity.
  - apply (setitem_upsert demo_store 0 1 demo_engine (KInt 5) (Fin 3) Hf Hok).
    + reflexivity.
    + reflexivity.
Defined.

(** C1 as stated fails on the code for a key of another shape than the
    container's: on an ['int'] container with bounds 1 and 10, the
    assignment [s['a'] = 2.] passes the weight check and is routed to
    [insert], which refuses the key with a [TypeError]; nothing is stored,
    and ['a' in s] is false afterwards. *)
Lemma setitem_wrong_shape_key :
  weight_in_range (e_min demo_engine) (e_max demo_engine) (Fin 2) = true /\
  key_matches (e_type demo_engine) (KStr "a") = false /\
  __setitem__ 0 (KStr "a") (Fin 2) demo_store = (Raise TypeError, demo_store) /\
  __contains__ 0 (KStr "a") demo_store = (Ok false, demo_store).
Proof. repeat split; vm_compute; reflexivity. Qed.

(** C3: for a weight outside [min_weight, max_weight], [s[key] = w] raises
    the [ValueError] for the range and the store is exactly as before, so
    size, total weight and contents are unchanged, whether or not the key
    is present. *)
Theorem setitem_out_of_range (h : store) (self l : loc) (e : engine)
    (k : pykey) (w : pyfloat) :
  facade_at h self l e ->
  weight_in_range (e_min e) (e_max e) w = false ->
  __setitem__ self k w h = (Raise (ValueError OutOfRange), h).
Proof. intros Hf Hw. by apply (setitem_rejects _ _ _ _ Hf). Qed.

Lemma setitem_out_of_range_witness :
  weight_in_range (Fin 1) (Fin 10) (Fin 11) = false /\
  __setitem__ 0 (KInt 5) (Fin 11) demo_store =
    (Raise (ValueError OutOfRange), demo_store) /\
  __setitem__ 0 (KInt 6) NaN demo_store =
    (Raise (ValueError OutOfRange), demo_store).
Proof.
  split; [reflexivity|]. split.
  - apply (setitem_out_of_range demo_store 0 1 demo_engine (KInt 5) (Fin 11)).
    + split; vm_compute; reflexivity.
    + reflexivity.
  - apply (setitem_out_of_range demo_store 0 1 demo_engine (KInt 6) NaN).
    + split; vm_compute; reflexivity.
    + reflexivity.
Defined.

(** C4: on a constructed instance [s[key]] raises [AttributeError]: the
    function calls [self.get_weight], a name that is neither bound on the
    instance nor defined by the class.  Shown on
    [s = SamplableSet(1, 10); s[5] = 2.], for the stored key and for any
    other. *)
Theorem getitem_attribute_error (k : pykey) :
  __getitem__ 0 k demo_store = (Raise (AttributeError "get_weight"), demo_store) /\
  call_attr 0 "count" [VKey (KInt 5)] demo_store = (Ok (VFloat (Fin 2)), demo_store).
Proof.
  split.
  - apply (getitem_spec _ _ _ _ demo_facade_at).
  - by rewrite (count_spec _ _ _ _ demo_facade_at).
Qed.

(** ** Sampling *)

Lemma sample_one_shape (h : store) (self l : loc) (e : engine) :
  facade_at h self l e ->
  exists v e', sample self 1 h = (Ok (One v), <[l := OEngine e']> h).
Proof.
  intros Hf. eexists _, _. unfold sample. simpl.
  by rewrite (bind_ok _ _ _ _ _ (sample_once_spec _ _ _ _ Hf)).
Qed.

(** C7: [sample()] with [n_samples=1] returns one result and changes only
    the random source of the compiled object: the stored weights, the total
    weight and the size are as before, seen from the container and through
    the wrapper; on an empty container the result is [None], not an
    exception, and nothing at all changes. *)
Theorem sample_one_keeps_contents (h : store) (self l : loc) (e : engine) :
  facade_at h self l e ->
  call_sample self [] [] h = sample self 1 h /\
  exists v e',
    sample self 1 h = (Ok (One v), <[l := OEngine e']> h) /\
    e_items e' = e_items e /\ e_total e' = e_total e /\
    engine_size e' = engine_size e /\
    fst (__len__ self (<[l := OEngine e']> h)) = fst (__len__ self h) /\
    fst (call_attr self "total_weight" [] (<[l := OEngine e']> h)) =
      fst (call_attr self "total_weight" [] h) /\
    (forall k, fst (call_attr self "count" [VKey k] (<[l := OEngine e']> h)) =
               fst (call_attr self "count" [VKey k] h)) /\
    (engine_size e = 0 -> v = VNone /\ <[l := OEngine e']> h = h) /\
    (engine_size e <> 0 -> exists k w, v = VPair k w /\ e_items e !! k = Some w).
Proof.
  intros Hf. split; [done|].
  exists (sample_value (fst (engine_sample e))), (snd (engine_sample e)).
  destruct (engine_sample_items e) as [Hi Ht].
  destruct (engine_sample_config e) as (Hmin & Hmax & _).
  pose proof (facade_at_update _ _ _ _ _ Hf Hmin Hmax) as Hf'.
  split.
  { unfold sample. simpl.
    by rewrite (bind_ok _ _ _ _ _ (sample_once_spec _ _ _ _ Hf)). }
  split; [done|]. split; [done|].
  split; [unfold engine_size; by rewrite Hi|].
  split. { rewrite (len_spec _ _ _ _ Hf'), (len_spec _ _ _ _ Hf).
           unfold engine_size. by rewrite Hi. }
  split. { rewrite (total_weight_spec _ _ _ _ Hf'), (total_weight_spec _ _ _ _ Hf).
           by rewrite Ht. }
  split. { intros k. rewrite (count_spec _ _ _ _ Hf'), (count_spec _ _ _ _ Hf).
           by rewrite Hi. }
  split.
  - intros Hz. rewrite (engine_sample_empty _ Hz). simpl.
    split; [done|]. apply store_insert_id, Hf.
  - intros Hnz. destruct (fst (engine_sample e)) as [[k w]|] eqn:Hs.
    + exists k, w. split; [done|]. by apply engine_sample_stored.
    + by apply engine_sample_sentinel in Hs.
Qed.

Lemma sample_one_keeps_contents_witness :
  facade_at demo_store 0 1 demo_engine /\
  exists v e',
    sample 0 1 demo_store = (Ok (One v), <[1 := OEngine e']> demo_store) /\
    e_items e' = e_items demo_engine.
Proof.
  assert (Hf : facade_at demo_store 0 1 demo_engine)
    by (split; vm_compute; reflexivity).
  split; [exact Hf|].
  destruct (sample_one_keeps_contents demo_store 0 1 demo_engine Hf)
    as (_ & v & e' & Hs & Hi & _).
  exists v, e'. split; [exact Hs | exact Hi].
Defined.

Lemma gen_list_unfold (g : generator) (h : store) :
  gen_list g h =
    (r <- gen_next g ;;
     match r.1 with
     | None => ret []
     | Some v => vs <- gen_list r.2 ;; ret (v :: vs)
     end) h.
Proof.
  unfold gen_list, gen_next. destruct g as [self [|n]]; simpl; [done|].
  unfold bind. destruct (sample_once self h) as [[v|x] h1]; done.
Qed.

Lemma drawn_from_sample e :
  drawn_from (e_items e) (sample_value (fst (engine_sample e))).
Proof.
  destruct (fst (engine_sample e)) as [[k w]|] eqn:Hs; simpl.
  - by apply engine_sample_stored.
  - apply engine_sample_sentinel in Hs. by apply map_size_empty_iff.
Qed.

Lemma gen_run_spec (self l : loc) (n : nat) :
  forall (h : store) (e : engine), facade_at h self l e ->
  exists vs e',
    gen_run self n h = (Ok vs, <[l := OEngine e']> h) /\
    length vs = n /\ same_config e e' /\
    e_items e' = e_items e /\ e_total e' = e_total e /\
    Forall (drawn_from (e_items e)) vs.
Proof.
  induction n as [|n IH]; intros h e Hf.
  - exists [], e. simpl. unfold ret.
    rewrite store_insert_id by apply Hf. by repeat split.
  - simpl. rewrite (bind_ok _ _ _ _ _ (sample_once_spec _ _ _ _ Hf)).
    destruct (engine_sample_items e) as [Hi Ht].
    destruct (engine_sample_config e) as (Hmin & Hmax & Hty).
    pose proof (facade_at_update _ _ _ _ _ Hf Hmin Hmax) as Hf'.
    destruct (IH _ _ Hf') as (vs & e' & Hrun & Hlen & (Hmin' & Hmax' & Hty') & Hi' & Ht' & Hall).
    exists (sample_value (fst (engine_sample e)) :: vs), e'.
    rewrite (bind_ok _ _ _ _ _ Hrun). unfold ret.
    rewrite list_insert_insert_eq.
    repeat split; simpl; try congruence.
    constructor; [apply drawn_from_sample|]. by rewrite Hi in Hall.
Qed.

(** What [sample(n_samples)] does: it returns one result for
    [n_samples = 1]; for any other count it returns a generator, nothing
    being sampled yet, and consuming the generator gives exactly
    [n_samples] results (none for a count below one).  No result removes
    anything: the contents and the total weight stay as they were, each
    result is a stored pair, and on an empty container each is the empty
    sentinel. *)
Theorem sample_batch (h : store) (self l : loc) (e : engine) (n : Z) :
  facade_at h self l e ->
  (n = 1%Z -> exists v e', sample self n h = (Ok (One v), <[l := OEngine e']> h)) /\
  (n <> 1%Z ->
     sample self n h = (Ok (Gen (sample_generator self n)), h) /\
     exists vs e',
       gen_list (sample_generator self n) h = (Ok vs, <[l := OEngine e']> h) /\
       length vs = Z.to_nat n /\
       e_items e' = e_items e /\ e_total e' = e_total e /\
       Forall (drawn_from (e_items e)) vs).
Proof.
  intros Hf. split.
  - intros ->. destruct (sample_one_shape h self l e Hf) as (v & e' & Hs).
    by exists v, e'.
  - intros Hn. split.
    + unfold sample. by destruct (Z.eqb_spec n 1).
    + destruct (gen_run_spec self l (Z.to_nat n) h e Hf)
        as (vs & e' & Hrun & Hlen & _ & Hi & Ht & Hall).
      by exists vs, e'.
Qed.

Lemma sample_batch_witness :
  facade_at demo_store 0 1 demo_engine /\
  (5 <> 1)%Z /\
  exists vs e',
    gen_list (sample_generator 0 5) demo_store = (Ok vs, <[1 := OEngine e']> demo_store) /\
    length vs = 5 /\
    e_items e' = e_items demo_engine.
Proof.
  assert (Hf : facade_at demo_store 0 1 demo_engine)
    by (split; vm_compute; reflexivity).
  assert (Hn : (5 <> 1)%Z) by lia.
  split; [exact Hf|]. split; [exact Hn|].
  destruct (sample_batch demo_store 0 1 demo_engine 5 Hf) as [_ Hb].
  destruct (Hb Hn) as (_ & vs & e' & Hrun & Hlen & Hi & _).
  exists vs, e'. split; [exact Hrun|]. split; [exact Hlen | exact Hi].
Defined.

(** C2: the batch sampling call of the claim does not exist in the code.
    [sample] has the one parameter [n_samples], so on a container holding
    the single element [(5, 2.)] the call
    [s.sample(n_samples=5, replace=False)] raises [TypeError] and changes
    nothing, where the claim has five results, the element and then four
    sentinels; [s.sample(replace=False)] raises it as well; and
    [s.sample(n_samples=1)] returns the single result [(5, 2.)], never a
    sequence of one. *)
Lemma sample_has_no_replace_flag :
  call_sample 0 [] [("n_samples", ArgInt 5); ("replace", ArgBool false)] demo_store =
    (Raise TypeError, demo_store) /\
  call_sample 0 [] [("replace", ArgBool false)] demo_store =
    (Raise TypeError, demo_store) /\
  fst (call_sample 0 [] [("n_samples", ArgInt 1)] demo_store) =
    Ok (One (VPair (KInt 5) (Fin 2))) /\
  (forall g, fst (call_sample 0 [] [("n_samples", ArgInt 1)] demo_store) <> Ok (Gen g)).
Proof.
  assert (fst (call_sample 0 [] [("n_samples", ArgInt 1)] demo_store) =
            Ok (One (VPair (KInt 5) (Fin 2)))) as H1 by (vm_compute; reflexivity).
  repeat split; try (vm_compute; reflexivity); try exact H1.
  intros g. by rewrite H1.
Qed.

(** ** The inferred type *)

(** C5: the inference looks only at the first key, but its test
    [first_element is int] compares the key with the type object, so a
    scalar integer selects ['edge']: [SamplableSet(1, 100, {3: 33.3,
    6: 66.6})] instanciates [EdgeSamplableSet], whatever [cpp_type] was
    passed, and the first assignment is then refused. *)
Theorem infer_cpp_type_of_integer :
  (forall z, infer_cpp_type (KInt z) = type_edge) /\
  (forall t,
     let r := new_SamplableSet (Fin 1) (Fin 100) (ew_dict test_dict) None t [] in
     fst r = Raise TypeError /\
     class_of <$> snd r !! 1 = Some EdgeSamplableSet).
Proof.
  split; [done|]. intros t. destruct t; split; vm_compute; reflexivity.
Qed.

(** ** Construction with bad bounds *)

Lemma unpacking_falsy ew t (h : store) :
  ew_truthy ew = false -> unpacking ew t h = (Ok (t, None), h).
Proof. unfold unpacking. intros ->. by destruct (unpack ew). Qed.

Lemma unpacking_given ew t (h : store) k0 els w0 ws :
  ew_truthy ew = true -> unpack ew = (k0 :: els, w0 :: ws) ->
  unpacking ew t h =
    if bool_decide (length (k0 :: els) = length (w0 :: ws))
    then (Ok (infer_cpp_type k0, Some (k0, w0)), h)
    else (Raise (ValueError LengthMismatch), h).
Proof.
  unfold unpacking. intros -> ->. unfold bind, next_iter, ret, raise.
  by case_bool_decide.
Qed.

Lemma unpacking_pure ew t (h : store) : snd (unpacking ew t h) = h.
Proof.
  unfold unpacking. destruct (unpack ew) as [els ws].
  destruct (ew_truthy ew); [|done].
  destruct els, ws; try done.
  unfold bind, next_iter, ret, raise. by case_bool_decide.
Qed.

Lemma init_rejects_bounds (h : store) (self : loc) (mn mx : pyfloat)
    (ew : elements_weights_arg) (seed : option Z) (t : cpp_kind) :
  valid_bounds mn mx = false ->
  exists x, __init__ self mn mx ew seed t h = (Raise x, h).
Proof.
  intros Hb. unfold __init__.
  pose proof (unpacking_pure ew t h) as Hp.
  destruct (unpacking ew t h) as [[[t' first]|x] h1] eqn:Hu;
    simpl in Hp; subst h1.
  - exists (ValueError OutOfRange).
    rewrite (bind_ok _ _ _ _ _ Hu). apply bind_raise.
    by apply instanciate_fails.
  - exists x. by apply bind_raise.
Qed.




(** ** Copies *)

Lemma copy_object (h : store) (self l : loc) (e : engine) :
  facade_at h self l e ->
  copy self h = (Ok (length h), h ++ [OEngine (engine_copy e)]) /\
  (h ++ [OEngine (engine_copy e)]) !! length h = Some (OEngine (engine_copy e)) /\
  facade_at (h ++ [OEngine (engine_copy e)]) self l e /\
  length h <> l /\ length h <> self.
Proof.
  intros Hf. pose proof Hf as [Hs Hl].
  assert (self < length h) by by eapply lookup_lt_Some.
  assert (l < length h) by by eapply lookup_lt_Some.
  split; [exact (copy_spec h self l e Hf)|].
  split; [by rewrite lookup_app_r, Nat.sub_diag by lia|].
  split; [|lia].
  split; by rewrite lookup_app_l by lia.
Qed.

(** C10: what [copy()], [copy.copy] and [copy.deepcopy] return is a new
    object of the class of the compiled object, [IntSamplableSet] or
    [EdgeSamplableSet], not of [SamplableSet]: looking up a dict-style
    operation or [min_weight] / [max_weight] on it fails, while the
    instance it was copied from has every one of them. *)
Theorem copy_is_not_a_wrapper (h : store) (self l : loc) (e : engine) :
  facade_at h self l e ->
  exists c h',
    copy self h = (Ok c, h') /\
    __copy__ self h = (Ok c, h') /\
    __deepcopy__ self h = (Ok c, h') /\
    class_of <$> h' !! c = Some (template_classes (e_type e)) /\
    class_of <$> h' !! c <> Some SamplableSet /\
    class_of <$> h' !! self = Some SamplableSet /\
    Forall (fun name =>
              getattr c name h' = (Raise (AttributeError name), h') /\
              is_ok (fst (getattr self name h')) = true)
           facade_only_names.
Proof.
  intros Hf.
  destruct (copy_object h self l e Hf) as (Hc & Hnew & Hf' & _ & _).
  eexists _, _. split; [exact Hc|].
  split; [exact Hc|]. split; [exact Hc|].
  rewrite Hnew. destruct Hf' as [Hs' Hl']. rewrite Hs'. simpl.
  split; [done|]. split; [by destruct (e_type e)|]. split; [done|].
  unfold facade_only_names, getattr. rewrite Hnew, Hs'.
  repeat constructor.
Qed.

Lemma copy_is_not_a_wrapper_witness :
  facade_at demo_store 0 1 demo_engine /\
  exists c h',
    copy 0 demo_store = (Ok c, h') /\
    class_of <$> h' !! c = Some IntSamplableSet /\
    getattr c "__getitem__" h' = (Raise (AttributeError "__getitem__"), h').
Proof.
  assert (Hf : facade_at demo_store 0 1 demo_engine)
    by (split; vm_compute; reflexivity).
  split; [exact Hf|].
  destruct (copy_is_not_a_wrapper demo_store 0 1 demo_engine Hf)
    as (c & h' & Hc & _ & _ & Hcl & _ & _ & Hall).
  exists c, h'. split; [exact Hc|]. split; [exact Hcl|].
  apply Forall_cons in Hall. exact (proj1 (proj1 Hall)).
Defined.

(** ** Construction from a dict *)

Lemma upsert_all_items pairs e :
  e_items (upsert_all pairs e) =
    foldl (fun m kw => <[kw.1 := kw.2]> m) (e_items e) pairs.
Proof.
  revert e. induction pairs as [|[k w] rest IH]; intros e; simpl; [done|].
  unfold upsert_all in *. simpl. by rewrite IH, upsert_items.
Qed.

Lemma upsert_all_config pairs e : same_config e (upsert_all pairs e).
Proof.
  revert e. induction pairs as [|[k w] rest IH]; intros e; [done|].
  unfold upsert_all in *. simpl.
  destruct (IH (upsert k w e)) as (H1 & H2 & H3).
  destruct (upsert_bounds k w e) as (H4 & H5 & H6).
  unfold same_config. by rewrite H1, H2, H3.
Qed.

Lemma inserts_notin (pairs : list (pykey * pyfloat)) (m : gmap pykey pyfloat) k :
  k ∉ pairs.*1 ->
  foldl (fun m kw => <[kw.1 := kw.2]> m) m pairs !! k = m !! k.
Proof.
  revert m. induction pairs as [|[k1 w1] rest IH]; intros m Hk; simpl; [done|].
  simpl in Hk. apply not_elem_of_cons in Hk as [Hne Hk].
  rewrite IH by done. by rewrite lookup_insert_ne.
Qed.

Lemma inserts_lookup (pairs : list (pykey * pyfloat)) (m : gmap pykey pyfloat) k w :
  NoDup pairs.*1 -> (k, w) ∈ pairs ->
  foldl (fun m kw => <[kw.1 := kw.2]> m) m pairs !! k = Some w.
Proof.
  revert m. induction pairs as [|[k1 w1] rest IH]; intros m Hnd Hin; simpl.
  - by apply elem_of_nil in Hin.
  - simpl in Hnd. apply NoDup_cons in Hnd as [Hk1 Hnd].
    apply elem_of_cons in Hin as [[= -> ->]|Hin].
    + rewrite inserts_notin by done. apply lookup_insert_eq.
    + by apply IH.
Qed.

Lemma inserts_size (pairs : list (pykey * pyfloat)) (m : gmap pykey pyfloat) :
  NoDup pairs.*1 -> (forall k, k ∈ pairs.*1 -> m !! k = None) ->
  size (foldl (fun m kw => <[kw.1 := kw.2]> m) m pairs) = size m + length pairs.
Proof.
  revert m. induction pairs as [|[k1 w1] rest IH]; intros m Hnd Hm; simpl.
  - lia.
  - simpl in Hnd. apply NoDup_cons in Hnd as [Hk1 Hnd].
    rewrite IH; [|done|].
    + rewrite map_size_insert_None; [lia|]. apply Hm. simpl. apply elem_of_cons. by left.
    + intros k Hk. rewrite lookup_insert_ne.
      * apply Hm. simpl. apply elem_of_cons. by right.
      * by intros ->.
Qed.

Lemma assign_all_spec (self l : loc) (pairs : list (pykey * pyfloat)) :
  forall (h : store) (e : engine),
  facade_at h self l e -> engine_ok e ->
  Forall (fun kw => key_matches (e_type e) kw.1 = true /\
                    weight_in_range (e_min e) (e_max e) kw.2 = true) pairs ->
  assign_all self pairs h = (Ok tt, <[l := OEngine (upsert_all pairs e)]> h) /\
  engine_ok (upsert_all pairs e).
Proof.
  induction pairs as [|[k w] rest IH]; intros h e Hf Hok Hall.
  - simpl. unfold ret. by rewrite store_insert_id by apply Hf.
  - apply Forall_cons in Hall as [[Hk Hw] Hall]. simpl in Hk, Hw.
    simpl. rewrite (bind_ok _ _ _ _ _ (setitem_spec _ _ _ _ Hf k w Hok Hk Hw)).
    destruct (upsert_bounds k w e) as (Hmin & Hmax & Hty).
    pose proof (facade_at_update _ _ _ _ (upsert k w e) Hf Hmin Hmax) as Hf'.
    pose proof (upsert_ok k w e Hok Hk Hw) as Hok'.
    destruct (IH _ _ Hf' Hok') as [Hrun Hok2].
    { by rewrite Hmin, Hmax, Hty. }
    split; [|done]. rewrite Hrun. by rewrite list_insert_insert_eq.
Qed.

Lemma initialize_dict (self : loc) k0 w0 d :
  initialize self (ew_dict ((k0, w0) :: d)) (Some (k0, w0)) =
    (__setitem__ self k0 w0 ;; __setitem__ self k0 w0 ;; assign_all self d).
Proof. unfold initialize. simpl. by rewrite zip_fst_snd. Qed.

Lemma init_from_dict_runs (h : store) (self : loc) (min_weight max_weight : pyfloat)
    (d : list (pykey * pyfloat)) (seed : option Z) (t : cpp_kind) :
  h !! self = Some (OFacade ∅) ->
  valid_bounds min_weight max_weight = true ->
  NoDup d.*1 ->
  Forall (fun kw => key_matches type_edge kw.1 = true /\
                    weight_in_range min_weight max_weight kw.2 = true) d ->
  exists h' e,
    __init__ self min_weight max_weight (ew_dict d) seed t h = (Ok tt, h') /\
    facade_at h' self (length h) e /\
    e = upsert_all d (Engine (if d is [] then t else type_edge)
                        min_weight max_weight ∅ fzero (rng_seed seed)) /\
    engine_size e = length d /\
    (forall k w, (k, w) ∈ d -> engine_count k e = Some w) /\
    __len__ self h' = (Ok (VInt (Z.of_nat (length d))), h') /\
    (forall k w, (k, w) ∈ d ->
       call_attr self "count" [VKey k] h' = (Ok (VFloat w), h')).
Proof.
  intros Hs Hb Hnd Hall.
  set (ty := if d is [] then t else type_edge).
  set (e0 := Engine ty min_weight max_weight ∅ fzero (rng_seed seed)).
  assert (Hpost : forall h' e, facade_at h' self (length h) e ->
            e = upsert_all d e0 ->
            engine_size e = length d /\
            (forall k w, (k, w) ∈ d -> engine_count k e = Some w) /\
            __len__ self h' = (Ok (VInt (Z.of_nat (length d))), h') /\
            (forall k w, (k, w) ∈ d ->
               call_attr self "count" [VKey k] h' = (Ok (VFloat w), h'))).
  { intros h' e Hf ->.
    assert (Hsz : engine_size (upsert_all d e0) = length d).
    { unfold engine_size. rewrite upsert_all_items. simpl.
      rewrite inserts_size; [by rewrite map_size_empty|done|].
      intros k _. apply lookup_empty. }
    assert (Hlk : forall k w, (k, w) ∈ d -> engine_count k (upsert_all d e0) = Some w).
    { intros k w Hin. unfold engine_count. rewrite upsert_all_items.
      by apply inserts_lookup. }
    split; [done|]. split; [done|]. split.
    - by rewrite (len_spec _ _ _ _ Hf), Hsz.
    - intros k w Hin. rewrite (count_spec _ _ _ _ Hf).
      unfold engine_count in Hlk. by rewrite (Hlk _ _ Hin). }
  destruct (instanciate_facade_at h self min_weight max_weight seed ty Hs Hb)
    as (h1 & e1 & Hinst & Hf1 & Hok1 & He1 & _ & _).
  fold e0 in He1. subst e1.
  destruct d as [|[k0 w0] d'].
  - exists h1, e0. unfold __init__.
    rewrite (bind_ok _ _ _ _ _ (unpacking_falsy (ew_dict []) t h eq_refl)).
    simpl. rewrite (bind_ok _ _ _ _ _ Hinst).
    split; [done|]. split; [done|]. split; [done|]. by apply Hpost.
  - pose proof Hall as Hall'.
    apply Forall_cons in Hall' as [[Hk0 Hw0] _]. simpl in Hk0, Hw0.
    assert (infer_cpp_type k0 = type_edge) as Hty by by destruct k0.
    pose proof (setitem_spec _ _ _ _ Hf1 k0 w0 Hok1 Hk0 Hw0) as Hset.
    destruct (upsert_bounds k0 w0 e0) as (Hmin & Hmax & Hty').
    pose proof (facade_at_update _ _ _ _ (upsert k0 w0 e0) Hf1 Hmin Hmax) as Hf2.
    pose proof (upsert_ok k0 w0 e0 Hok1 Hk0 Hw0) as Hok2.
    destruct (assign_all_spec self (length h) ((k0, w0) :: d') _ _ Hf2 Hok2)
      as [Hrun _].
    { by rewrite Hmin, Hmax, Hty'. }
    assert (Heq : upsert_all ((k0, w0) :: d') (upsert k0 w0 e0) =
                  upsert_all ((k0, w0) :: d') e0).
    { unfold upsert_all. simpl. by rewrite upsert_twice. }
    rewrite Heq, list_insert_insert_eq in Hrun.
    exists (<[length h := OEngine (upsert_all ((k0, w0) :: d') e0)]> h1),
           (upsert_all ((k0, w0) :: d') e0).
    split.
    { unfold __init__. erewrite bind_ok; cycle 1.
      { rewrite (unpacking_given _ _ _ k0 (d'.*1) w0 (d'.*2)) by done.
        rewrite bool_decide_eq_true_2; [done|].
        by rewrite !length_cons, !length_fmap. }
      cbn [fst snd]. rewrite Hty, (bind_ok _ _ _ _ _ Hinst).
      rewrite initialize_dict, (bind_ok _ _ _ _ _ Hset).
      exact Hrun. }
    assert (Hf3 : facade_at (<[length h := OEngine (upsert_all ((k0, w0) :: d') e0)]> h1)
                    self (length h) (upsert_all ((k0, w0) :: d') e0)).
    { destruct (upsert_all_config ((k0, w0) :: d') e0) as (H1 & H2 & _).
      by apply (facade_at_update _ _ _ _ _ Hf1). }
    split; [done|]. split; [done|]. by apply Hpost.
Qed.


Lemma setitem_ok_inv (h h' : store) (self l : loc) (e : engine) k w :
  facade_at h self l e -> engine_ok e ->
  __setitem__ self k w h = (Ok tt, h') ->
  key_matches (e_type e) k = true /\
  weight_in_range (e_min e) (e_max e) w = true.
Proof.
  intros Hf Hok. unfold __setitem__.
  rewrite (bind_ok _ _ _ _ _ (weight_check_spec _ _ _ _ Hf w)).
  destruct (weight_in_range (e_min e) (e_max e) w) eqn:Hw; [|done].
  rewrite (bind_ok _ _ _ _ _ (contains_ok_spec _ _ _ _ Hf k Hok)).
  destruct (e_items e !! k) as [old|] eqn:Hl; simpl.
  - intros _. split; [|done]. by destruct (ok_items _ Hok _ _ Hl).
  - destruct (key_matches (e_type e) k) eqn:Hk; [done|].
    erewrite bind_raise; [done|].
    eapply (call_attr_raise _ _ _ _ Hf); [reflexivity|].
    simpl. unfold engine_insert. by rewrite Hk.
Qed.

Lemma assign_all_ok_inv (self l : loc) (pairs : list (pykey * pyfloat)) :
  forall (h h' : store) (e : engine),
  facade_at h self l e -> engine_ok e ->
  assign_all self pairs h = (Ok tt, h') ->
  Forall (fun kw => key_matches (e_type e) kw.1 = true /\
                    weight_in_range (e_min e) (e_max e) kw.2 = true) pairs.
Proof.
  induction pairs as [|[k w] rest IH]; intros h h' e Hf Hok Hrun; [done|].
  simpl in Hrun. unfold bind in Hrun.
  destruct (__setitem__ self k w h) as [[[]|x] h1] eqn:Hset; [|done].
  destruct (setitem_ok_inv _ _ _ _ _ _ _ Hf Hok Hset) as [Hk Hw].
  rewrite (setitem_spec _ _ _ _ Hf k w Hok Hk Hw) in Hset.
  injection Hset as <-.
  destruct (upsert_bounds k w e) as (Hmin & Hmax & Hty).
  pose proof (facade_at_update _ _ _ _ (upsert k w e) Hf Hmin Hmax) as Hf'.
  pose proof (upsert_ok k w e Hok Hk Hw) as Hok'.
  specialize (IH _ _ _ Hf' Hok' Hrun). rewrite Hmin, Hmax, Hty in IH.
  by constructor.
Qed.

Lemma init_from_dict_inv (h h' : store) (self : loc) (mn mx : pyfloat)
    (d : list (pykey * pyfloat)) (seed : option Z) (t : cpp_kind) :
  h !! self = Some (OFacade ∅) ->
  __init__ self mn mx (ew_dict d) seed t h = (Ok tt, h') ->
  valid_bounds mn mx = true /\
  Forall (fun kw => key_matches type_edge kw.1 = true /\
                    weight_in_range mn mx kw.2 = true) d.
Proof.
  intros Hs Hinit.
  destruct (valid_bounds mn mx) eqn:Hb; cycle 1.
  { destruct (init_rejects_bounds h self mn mx (ew_dict d) seed t Hb) as [x Hx].
    congruence. }
  split; [done|]. destruct d as [|[k0 w0] d']; [done|].
  revert Hinit. unfold __init__. erewrite bind_ok; cycle 1.
  { rewrite (unpacking_given _ _ _ k0 (d'.*1) w0 (d'.*2)) by done.
    rewrite bool_decide_eq_true_2; [done|].
    by rewrite !length_cons, !length_fmap. }
  cbn [fst snd].
  destruct (instanciate_facade_at h self mn mx seed (infer_cpp_type k0) Hs Hb)
    as (h1 & e1 & Hinst & Hf1 & Hok1 & He1 & _ & _).
  rewrite (bind_ok _ _ _ _ _ Hinst), initialize_dict.
  unfold bind at 1.
  destruct (__setitem__ self k0 w0 h1) as [[[]|x] h2] eqn:Hset; [|done].
  destruct (setitem_ok_inv _ _ _ _ _ _ _ Hf1 Hok1 Hset) as [Hk Hw].
  rewrite (setitem_spec _ _ _ _ Hf1 k0 w0 Hok1 Hk Hw) in Hset.
  injection Hset as <-.
  destruct (upsert_bounds k0 w0 e1) as (Hmin & Hmax & Hty).
  pose proof (facade_at_update _ _ _ _ (upsert k0 w0 e1) Hf1 Hmin Hmax) as Hf2.
  pose proof (upsert_ok k0 w0 e1 Hok1 Hk Hw) as Hok2.
  intros Hrun.
  pose proof (assign_all_ok_inv self (length h) ((k0, w0) :: d') _ _ _ Hf2 Hok2 Hrun)
    as Hall.
  rewrite Hmin, Hmax, Hty in Hall. subst e1. simpl in Hall, Hk.
  assert (infer_cpp_type k0 = type_edge) as Hedge by by destruct k0.
  by rewrite Hedge in Hall.
Qed.

(** C9: construction from a dict assigns the first key twice, before the
    loop and as its first step, and the second assignment changes
    nothing.  Whenever the construction returns, the size of the container
    is the number of keys of the dict and every key has the weight the
    dict gives it; and it does return, with the fresh container in which
    each pair was assigned once, for valid bounds, weights inside them and
    keys of the variant the constructor selects. *)
Theorem init_from_dict (h : store) (self : loc) (min_weight max_weight : pyfloat)
    (d : list (pykey * pyfloat)) (seed : option Z) (t : cpp_kind) :
  h !! self = Some (OFacade ∅) ->
  NoDup d.*1 ->
  (forall k0 w0 d', d = (k0, w0) :: d' ->
     initialize self (ew_dict d) (Some (k0, w0)) =
       (__setitem__ self k0 w0 ;; __setitem__ self k0 w0 ;; assign_all self d')) /\
  (forall h',
     __init__ self min_weight max_weight (ew_dict d) seed t h = (Ok tt, h') ->
     exists e,
       facade_at h' self (length h) e /\
       engine_size e = length d /\
       (forall k w, (k, w) ∈ d -> engine_count k e = Some w) /\
       __len__ self h' = (Ok (VInt (Z.of_nat (length d))), h') /\
       (forall k w, (k, w) ∈ d ->
          call_attr self "count" [VKey k] h' = (Ok (VFloat w), h'))) /\
  (valid_bounds min_weight max_weight = true ->
   Forall (fun kw => key_matches type_edge kw.1 = true /\
                     weight_in_range min_weight max_weight kw.2 = true) d ->
   exists h',
     __init__ self min_weight max_weight (ew_dict d) seed t h = (Ok tt, h') /\
     h' !! length h =
       Some (OEngine (upsert_all d (Engine (if d is [] then t else type_edge)
                        min_weight max_weight ∅ fzero (rng_seed seed))))).
Proof.
  intros Hs Hnd. split; [|split].
  - intros k0 w0 d' ->. apply initialize_dict.
  - intros h' Hinit.
    destruct (init_from_dict_inv _ _ _ _ _ _ _ _ Hs Hinit) as [Hb Hall].
    destruct (init_from_dict_runs h self min_weight max_weight d seed t Hs Hb Hnd Hall)
      as (h2 & e & Hrun & Hf & _ & Hsz & Hlk & Hlen & Hcnt).
    rewrite Hinit in Hrun. injection Hrun as <-.
    by exists e.
  - intros Hb Hall.
    destruct (init_from_dict_runs h self min_weight max_weight d seed t Hs Hb Hnd Hall)
      as (h2 & e & Hrun & Hf & He & _).
    exists h2. split; [done|]. rewrite <- He. apply Hf.
Qed.

Lemma init_from_dict_witness :
  valid_bounds (Fin 1) (Fin 100) = true /\
  NoDup edge_dict.*1 /\
  exists h' e,
    __init__ 0 (Fin 1) (Fin 100) (ew_dict edge_dict) None type_int [OFacade ∅] =
      (Ok tt, h') /\
    facade_at h' 0 1 e /\
    engine_size e = 2 /\
    engine_count (KTriple 1 2 3) e = Some (Fin 33.3) /\
    engine_count (KTriple 4 5 6) e = Some (Fin 66.6).
Proof.
  assert (Hnd : NoDup edge_dict.*1).
  { apply (bool_decide_unpack _). vm_compute. exact I. }
  split; [reflexivity|]. split; [exact Hnd|].
  destruct (init_from_dict [OFacade ∅] 0 (Fin 1) (Fin 100) edge_dict None type_int)
    as (_ & Hpost & Hruns).
  - reflexivity.
  - exact Hnd.
  - destruct Hruns as (h' & Hinit & _).
    + reflexivity.
    + repeat constructor.
    + destruct (Hpost h' Hinit) as (e & Hf & Hsz & Hlk & _).
      exists h', e. split; [exact Hinit|]. split; [exact Hf|].
      split; [exact Hsz|]. split.
      * apply Hlk. unfold edge_dict. apply elem_of_cons. left. reflexivity.
      * apply Hlk. unfold edge_dict. apply elem_of_cons. right.
        apply elem_of_cons. left. reflexivity.
Defined.

(** ** Calls are local to one compiled object *)

Lemma effect_config m args e : same_config e (effect m args e).
Proof.
  unfold effect. destruct (invoke m args e) as [[v e']|x] eqn:Hi; [|done].
  by eapply invoke_config.
Qed.

Lemma snd_bind_ret {A} (m : M A) (h : store) :
  snd ((m ;; ret tt) h) = snd (m h).
Proof. unfold bind, ret. by destruct (m h) as [[a|x] h1]. Qed.

Lemma call_effect (h : store) l m args e :
  h !! l = Some (OEngine e) ->
  snd (call (ABound l m) args h) = <[l := OEngine (effect m args e)]> h.
Proof.
  intros Hl. unfold effect.
  destruct (invoke m args e) as [[v e']|x] eqn:Hi.
  - by erewrite call_ok.
  - erewrite call_raise by done. simpl. by rewrite store_insert_id.
Qed.

Lemma call_attr_effect (h : store) self l e name m args :
  facade_at h self l e ->
  facade_dict l (e_min e) (e_max e) !! name = Some (ABound l m) ->
  snd (call_attr self name args h) = <[l := OEngine (effect m args e)]> h.
Proof.
  intros Hf Hn. unfold call_attr.
  rewrite (bind_ok _ _ _ _ _ (attr_of _ _ _ _ Hf _ _ Hn)).
  apply call_effect, Hf.
Qed.

Lemma engine_call_effect (h : store) c ec e :
  h !! c = Some (OEngine e) ->
  snd (run_engine_call c ec h) =
    <[c := OEngine (effect (ec_method ec) (ec_args ec) e)]> h.
Proof.
  intros Hc. unfold run_engine_call, call_attr. rewrite snd_bind_ret.
  erewrite bind_ok; [by apply call_effect|].
  eapply getattr_engine; [done|]. by destruct ec.
Qed.

Lemma setitem_effect (h : store) self l e k w :
  facade_at h self l e ->
  snd (__setitem__ self k w h) =
    <[l := OEngine (facade_effect (fc_setitem k w) e)]> h.
Proof.
  intros Hf. unfold __setitem__. simpl.
  rewrite (bind_ok _ _ _ _ _ (weight_check_spec _ _ _ _ Hf w)).
  destruct (weight_in_range (e_min e) (e_max e) w).
  - rewrite (bind_ok _ _ _ _ _ (contains_spec _ _ _ _ Hf k)).
    unfold engine_count.
    destruct (e_items e !! k) as [old|]; simpl.
    + destruct (float_truthy old); rewrite snd_bind_ret;
        by apply (call_attr_effect _ _ _ _ _ _ _ Hf).
    + rewrite snd_bind_ret. by apply (call_attr_effect _ _ _ _ _ _ _ Hf).
  - simpl. symmetry. apply store_insert_id, Hf.
Qed.

Lemma sample_once_effect (h : store) self l e :
  facade_at h self l e ->
  snd (sample_once self h) = <[l := OEngine (snd (engine_sample e))]> h.
Proof. intros Hf. by rewrite (sample_once_spec _ _ _ _ Hf). Qed.

Lemma gen_run_effect (self l : loc) (n : nat) :
  forall (h : store) (e : engine), facade_at h self l e ->
  snd (gen_run self n h) = <[l := OEngine (sample_times n e)]> h.
Proof.
  induction n as [|n IH]; intros h e Hf; simpl.
  - symmetry. apply store_insert_id, Hf.
  - rewrite (bind_ok _ _ _ _ _ (sample_once_spec _ _ _ _ Hf)).
    destruct (engine_sample_config e) as (Hmin & Hmax & _).
    pose proof (facade_at_update _ _ _ _ _ Hf Hmin Hmax) as Hf'.
    specialize (IH _ _ Hf').
    unfold bind, ret.
    destruct (gen_run self n (<[l := OEngine (snd (engine_sample e))]> h))
      as [[vs|x] h1]; simpl in *; subst h1; by rewrite list_insert_insert_eq.
Qed.

Lemma sample_times_config n e : same_config e (sample_times n e).
Proof.
  revert e. induction n as [|n IH]; intros e; simpl; [done|].
  destruct (IH (snd (engine_sample e))) as (H1 & H2 & H3).
  destruct (engine_sample_config e) as (H4 & H5 & H6).
  unfold same_config. by rewrite H1, H2, H3.
Qed.

Lemma facade_effect_config fc e : same_config e (facade_effect fc e).
Proof.
  destruct fc; simpl; try apply effect_config.
  - repeat case_match; try done; apply effect_config.
  - case_match; [apply engine_sample_config | apply sample_times_config].
Qed.

Lemma facade_call_effect (h : store) self l e fc :
  facade_at h self l e ->
  snd (run_facade_call self fc h) = <[l := OEngine (facade_effect fc e)]> h.
Proof.
  intros Hf. destruct fc as [k w|k|k w|k w|k|n]; simpl.
  - by apply setitem_effect.
  - unfold __delitem__. rewrite snd_bind_ret.
    by apply (call_attr_effect _ _ _ _ _ _ _ Hf).
  - rewrite snd_bind_ret. by apply (call_attr_effect _ _ _ _ _ _ _ Hf).
  - rewrite snd_bind_ret. by apply (call_attr_effect _ _ _ _ _ _ _ Hf).
  - rewrite snd_bind_ret. by apply (call_attr_effect _ _ _ _ _ _ _ Hf).
  - unfold sample. destruct (n =? 1)%Z.
    + unfold bind, ret. by rewrite (sample_once_spec _ _ _ _ Hf).
    + unfold bind at 1, ret at 1. rewrite snd_bind_ret.
      unfold gen_list, sample_generator. simpl.
      by apply gen_run_effect.
Qed.

Lemma run_actions_spec (self l c : loc) (acts : list action) :
  forall (h : store) (e1 e2 : engine),
  facade_at h self l e1 -> h !! c = Some (OEngine e2) -> c <> l ->
  run_actions self c acts h !! l = Some (OEngine (after_actions acts e1 e2).1) /\
  run_actions self c acts h !! c = Some (OEngine (after_actions acts e1 e2).2) /\
  run_actions self c acts h !! self = h !! self.
Proof.
  induction acts as [|a rest IH]; intros h e1 e2 Hf Hc Hne.
  - simpl. split; [apply Hf|done].
  - assert (Hcs : c <> self).
    { intros ->. destruct Hf as [Hs _]. congruence. }
    pose proof (facade_at_neq _ _ _ _ Hf) as Hsl.
    assert (Hlt : c < length h) by by eapply lookup_lt_Some.
    simpl. destruct a as [fc|ec]; simpl.
    + rewrite (facade_call_effect _ _ _ _ fc Hf).
      destruct (facade_effect_config fc e1) as (Hmin & Hmax & _).
      pose proof (facade_at_update _ _ _ _ _ Hf Hmin Hmax) as Hf'.
      destruct (IH _ (facade_effect fc e1) e2 Hf') as (H1 & H2 & H3); [|done|].
      { by rewrite list_lookup_insert_ne. }
      split; [done|]. split; [done|].
      rewrite H3. by rewrite list_lookup_insert_ne.
    + rewrite (engine_call_effect _ _ ec _ Hc).
      set (e2' := effect (ec_method ec) (ec_args ec) e2).
      assert (Hf' : facade_at (<[c := OEngine e2']> h) self l e1).
      { destruct Hf as [Hs Hl]. split; by rewrite list_lookup_insert_ne. }
      destruct (IH _ e1 e2' Hf') as (H1 & H2 & H3); [|done|].
      { by apply list_lookup_insert_eq. }
      split; [done|]. split; [done|].
      rewrite H3. by rewrite list_lookup_insert_ne.
Qed.

Lemma after_actions_original (acts : list action) :
  forall e1 e2 e2',
  (after_actions (List.filter targets_original acts) e1 e2').1 =
    (after_actions acts e1 e2).1.
Proof.
  unfold after_actions.
  induction acts as [|[fc|ec] rest IH]; intros e1 e2 e2'; simpl; [done|..].
  - apply IH.
  - apply IH.
Qed.

Lemma after_actions_clone (acts : list action) :
  forall e1 e1' e2,
  (after_actions (List.filter targets_clone acts) e1' e2).2 =
    (after_actions acts e1 e2).2.
Proof.
  unfold after_actions.
  induction acts as [|[fc|ec] rest IH]; intros e1 e1' e2; simpl; [done|..].
  - apply IH.
  - apply IH.
Qed.

Lemma filter_none {A} (p q : A -> bool) (l : list A) :
  (forall a, q a = negb (p a)) -> forallb q l = true -> List.filter p l = [].
Proof.
  intros Hpq. induction l as [|a l IH]; simpl; [done|].
  rewrite andb_true_iff, Hpq. intros [Ha Hl].
  apply negb_true_iff in Ha. rewrite Ha. by apply IH.
Qed.

(** C8: [copy()] makes a new compiled object with the size, the total
    weight, the contents and the bounds of the original, which it leaves
    as it was.  After that, whatever calls are made on the two, in any
    order, each ends in the state its own calls alone lead to: calls on
    the clone never change the original, calls on the original never
    change the clone. *)
Theorem copy_independent (h : store) (self l : loc) (e : engine)
    (acts : list action) :
  facade_at h self l e ->
  exists c h' e',
    copy self h = (Ok c, h') /\ c <> l /\ c <> self /\
    h' !! c = Some (OEngine e') /\ h' !! l = Some (OEngine e) /\
    engine_size e' = engine_size e /\ e_total e' = e_total e /\
    e_items e' = e_items e /\ same_config e e' /\
    run_actions self c acts h' !! l =
      run_actions self c (List.filter targets_original acts) h' !! l /\
    run_actions self c acts h' !! c =
      run_actions self c (List.filter targets_clone acts) h' !! c /\
    (forallb targets_clone acts = true ->
       run_actions self c acts h' !! l = Some (OEngine e)) /\
    (forallb targets_original acts = true ->
       run_actions self c acts h' !! c = Some (OEngine e')).
Proof.
  intros Hf.
  destruct (copy_object h self l e Hf) as (Hc & Hnew & Hf' & Hcl & Hcs).
  exists (length h), (h ++ [OEngine (engine_copy e)]), (engine_copy e).
  split; [done|]. split; [done|]. split; [done|]. split; [done|].
  split; [apply Hf'|]. split; [done|]. split; [done|]. split; [done|].
  split; [done|].
  destruct (run_actions_spec self l (length h) acts _ e (engine_copy e) Hf' Hnew Hcl)
    as (H1 & H2 & _).
  destruct (run_actions_spec self l (length h) (List.filter targets_original acts)
              _ e (engine_copy e) Hf' Hnew Hcl) as (H3 & _ & _).
  destruct (run_actions_spec self l (length h) (List.filter targets_clone acts)
              _ e (engine_copy e) Hf' Hnew Hcl) as (_ & H4 & _).
  assert (Ho : run_actions self (length h) acts (h ++ [OEngine (engine_copy e)]) !! l =
               run_actions self (length h) (List.filter targets_original acts)
                 (h ++ [OEngine (engine_copy e)]) !! l).
  { rewrite H1, H3. by rewrite (after_actions_original acts e (engine_copy e)). }
  assert (Hk : run_actions self (length h) acts (h ++ [OEngine (engine_copy e)]) !! length h =
               run_actions self (length h) (List.filter targets_clone acts)
                 (h ++ [OEngine (engine_copy e)]) !! length h).
  { rewrite H2, H4. by rewrite (after_actions_clone acts e e (engine_copy e)). }
  split; [done|]. split; [done|]. split.
  - intros Hall. rewrite Ho.
    rewrite (filter_none targets_original targets_clone acts); [apply Hf'|done|done].
  - intros Hall. rewrite Hk.
    rewrite (filter_none targets_clone targets_original acts); [done| |done].
    intros a. unfold targets_clone. by rewrite negb_involutive.
Qed.

Lemma copy_independent_witness :
  facade_at demo_store 0 1 demo_engine /\
  exists c h',
    copy 0 demo_store = (Ok c, h') /\
    h' !! c = Some (OEngine demo_engine) /\
    run_actions 0 c [on_clone (ec_insert (KInt 9) (Fin 4)); on_clone (ec_erase (KInt 5))]
      h' !! 1 = Some (OEngine demo_engine) /\
    run_actions 0 c [on_original (fc_setitem (KInt 9) (Fin 4));
                     on_original (fc_delitem (KInt 5))] h' !! c =
      Some (OEngine demo_engine).
Proof.
  assert (Hf : facade_at demo_store 0 1 demo_engine)
    by (split; vm_compute; reflexivity).
  split; [exact Hf|].
  destruct (copy_independent demo_store 0 1 demo_engine
              [on_clone (ec_insert (KInt 9) (Fin 4)); on_clone (ec_erase (KInt 5))] Hf)
    as (c & h' & e' & Hc & _ & _ & Hn & _ & _ & _ & _ & _ & _ & _ & Hclone & _).
  destruct (copy_independent demo_store 0 1 demo_engine
              [on_original (fc_setitem (KInt 9) (Fin 4));
               on_original (fc_delitem (KInt 5))] Hf)
    as (c2 & h2 & e2 & Hc2 & _ & _ & Hn2 & _ & _ & _ & _ & _ & _ & _ & _ & Horig).
  rewrite Hc in Hc2. injection Hc2 as <- <-.
  assert (e' = demo_engine) as ->.
  { rewrite (copy_spec _ _ _ _ Hf) in Hc. injection Hc as <- <-.
    revert Hn. vm_compute. congruence. }
  rewrite Hn in Hn2. injection Hn2 as <-.
  exists c, h'. split; [exact Hc|]. split; [exact Hn|]. split.
  - apply Hclone. reflexivity.
  - apply Horig. reflexivity.
Defined.

(** ** Every constructed instance satisfies the invariants

    The hypotheses [facade_at] and [engine_ok] of the results above hold
    after every construction that returns, and every later call keeps
    them. *)

Lemma engine_insert_ok k w e e' :
  engine_ok e -> engine_insert k w e = Ok e' -> engine_ok e'.
Proof.
  intros Hok. unfold engine_insert.
  destruct (key_matches (e_type e) k) eqn:Hk; simpl; [|done].
  destruct (weight_in_range (e_min e) (e_max e) w) eqn:Hw; simpl; [|done].
  destruct (e_items e !! k) eqn:Hl; [done|]. intros [= <-].
  pose proof (upsert_ok k w e Hok Hk Hw) as Hu.
  unfold upsert in Hu. by rewrite Hl in Hu.
Qed.

Lemma engine_set_weight_ok k w e e' :
  engine_ok e -> engine_set_weight k w e = Ok e' -> engine_ok e'.
Proof.
  intros Hok. unfold engine_set_weight.
  destruct (weight_in_range (e_min e) (e_max e) w) eqn:Hw; simpl; [|done].
  destruct (e_items e !! k) as [old|] eqn:Hl; [|done]. intros [= <-].
  destruct (ok_items _ Hok _ _ Hl) as [Hk _].
  pose proof (upsert_ok k w e Hok Hk Hw) as Hu.
  unfold upsert in Hu. by rewrite Hl in Hu.
Qed.

Lemma engine_erase_ok k e e' :
  engine_ok e -> engine_erase k e = Ok e' -> engine_ok e'.
Proof.
  intros [Hb [t Ht] Hi]. unfold engine_erase.
  destruct (e_items e !! k) as [w|] eqn:Hl; [|done]. intros [= <-].
  destruct (Hi _ _ Hl) as [_ Hw].
  destruct (in_range_finite _ _ _ Hb Hw) as [q ->].
  split; simpl; [done| |].
  - rewrite Ht. unfold fsub. simpl. eauto.
  - intros k' w' Hk'. apply lookup_delete_Some in Hk' as [_ Hk']. by apply Hi.
Qed.

Lemma engine_sample_ok e : engine_ok e -> engine_ok (snd (engine_sample e)).
Proof.
  intros [Hb Ht Hi]. unfold engine_sample. case_decide; simpl; by split.
Qed.

Lemma effect_ok m args e : engine_ok e -> engine_ok (effect m args e).
Proof.
  intros Hok. unfold effect.
  destruct (invoke m args e) as [[v e']|x] eqn:Hinv; [|done].
  unfold invoke in Hinv.
  repeat case_match; simplify_eq; try done;
    eauto using engine_insert_ok, engine_set_weight_ok, engine_erase_ok.
  match goal with
  | Hs : engine_sample e = _ |- _ =>
      pose proof (engine_sample_ok e Hok) as Hc; by rewrite Hs in Hc
  end.
Qed.

Lemma sample_times_ok n e : engine_ok e -> engine_ok (sample_times n e).
Proof.
  revert e. induction n as [|n IH]; intros e Hok; simpl; [done|].
  by apply IH, engine_sample_ok.
Qed.

Lemma facade_effect_ok fc e : engine_ok e -> engine_ok (facade_effect fc e).
Proof.
  intros Hok. destruct fc; simpl; try by apply effect_ok.
  - repeat case_match; try done; by apply effect_ok.
  - case_match; [by apply engine_sample_ok | by apply sample_times_ok].
Qed.

Lemma assign_all_local (self l : loc) (pairs : list (pykey * pyfloat)) :
  forall (h : store) (e : engine),
  facade_at h self l e -> engine_ok e ->
  exists e', snd (assign_all self pairs h) = <[l := OEngine e']> h /\
             engine_ok e' /\ same_config e e'.
Proof.
  induction pairs as [|[k w] rest IH]; intros h e Hf Hok; simpl.
  - exists e. split; [|done]. symmetry. apply store_insert_id, Hf.
  - pose proof (setitem_effect _ _ _ _ k w Hf) as Hs.
    pose proof (facade_effect_ok (fc_setitem k w) e Hok) as Hok'.
    destruct (facade_effect_config (fc_setitem k w) e) as (Hmin & Hmax & Hty).
    pose proof (facade_at_update _ _ _ _ _ Hf Hmin Hmax) as Hf'.
    unfold bind.
    destruct (__setitem__ self k w h) as [[[]|x] h1]; cbn [snd] in Hs; subst h1.
    + destruct (IH _ _ Hf' Hok') as (e' & Hrun & Hok2 & (H1 & H2 & H3)).
      exists e'. rewrite Hrun, list_insert_insert_eq.
      split; [done|]. split; [done|]. unfold same_config. by rewrite H1, H2, H3.
    + by eexists.
Qed.

Lemma init_establishes (h h' : store) (self : loc) (mn mx : pyfloat)
    (ew : elements_weights_arg) (seed : option Z) (t : cpp_kind) :
  h !! self = Some (OFacade ∅) ->
  __init__ self mn mx ew seed t h = (Ok tt, h') ->
  exists e, facade_at h' self (length h) e /\ engine_ok e /\
            e_min e = mn /\ e_max e = mx.
Proof.
  intros Hs. unfold __init__.
  pose proof (unpacking_pure ew t h) as Hp.
  unfold bind at 1.
  destruct (unpacking ew t h) as [[[ty first]|x] h0]; simpl in Hp; subst h0; [|done].
  cbn [fst snd].
  destruct (valid_bounds mn mx) eqn:Hb; cycle 1.
  { by rewrite (bind_raise _ _ _ _ _ (instanciate_fails h self mn mx seed ty Hb)). }
  destruct (instanciate_facade_at h self mn mx seed ty Hs Hb)
    as (h1 & e1 & Hinst & Hf1 & Hok1 & He1 & _ & _).
  rewrite (bind_ok _ _ _ _ _ Hinst).
  assert (Hmm : e_min e1 = mn /\ e_max e1 = mx) by by subst e1.
  unfold initialize. destruct (unpack ew) as [els ws].
  destruct first as [[k0 w0]|]; cycle 1.
  { intros [= <-]. by exists e1. }
  pose proof (setitem_effect _ _ _ _ k0 w0 Hf1) as Hset.
  pose proof (facade_effect_ok (fc_setitem k0 w0) e1 Hok1) as Hok2.
  destruct (facade_effect_config (fc_setitem k0 w0) e1) as (Hmin & Hmax & Hty).
  pose proof (facade_at_update _ _ _ _ _ Hf1 Hmin Hmax) as Hf2.
  unfold bind.
  destruct (__setitem__ self k0 w0 h1) as [[[]|x] h2]; cbn [snd] in Hset; subst h2; [|done].
  destruct (assign_all_local self (length h) (zip els ws) _ _ Hf2 Hok2)
    as (e' & Hrun & Hok3 & (H1 & H2 & H3)).
  destruct (assign_all self (zip els ws) _) as [[[]|x] h3]; simpl in Hrun; [|done].
  intros [= <-]. subst h3. rewrite list_insert_insert_eq.
  exists e'. split; [|split; [done|]].
  - apply (facade_at_update _ _ _ _ _ Hf1); [by rewrite H1, Hmin | by rewrite H2, Hmax].
  - destruct Hmm as [<- <-]. split; [by rewrite H1, Hmin | by rewrite H2, Hmax].
Qed.

Lemma calls_preserve (h : store) (self l : loc) (e : engine) (fc : facade_call) :
  facade_at h self l e -> engine_ok e ->
  exists e', facade_at (snd (run_facade_call self fc h)) self l e' /\ engine_ok e'.
Proof.
  intros Hf Hok. exists (facade_effect fc e).
  rewrite (facade_call_effect _ _ _ _ fc Hf).
  destruct (facade_effect_config fc e) as (Hmin & Hmax & _).
  split; [by apply (facade_at_update _ _ _ e) | by apply facade_effect_ok].
Qed.

(** * Further properties of the wrapper *)

(** ** Membership, length and deletion *)

Lemma delitem_spec (h : store) (self l : loc) (e : engine) k w0 :
  facade_at h self l e -> e_items e !! k = Some w0 ->
  __delitem__ self k h =
    (Ok tt, <[l := OEngine (set_items e (delete k (e_items e))
                                      (fsub (e_total e) w0))]> h).
Proof.
  intros Hf Hk. unfold __delitem__.
  erewrite bind_ok; [done|].
  eapply (call_attr_ok _ _ _ _ Hf); [reflexivity|].
  simpl. unfold engine_erase. by rewrite Hk.
Qed.

(** [key in s] never raises and changes nothing; on a constructed instance
    it is [True] exactly for the stored keys, and [False] for a key of
    another shape than the container's. *)
Theorem contains_reports_presence (h : store) (self l : loc) (e : engine)
    (k : pykey) :
  facade_at h self l e -> engine_ok e ->
  __contains__ self k h = (Ok (bool_decide (k ∈ dom (e_items e))), h) /\
  (key_matches (e_type e) k = false -> __contains__ self k h = (Ok false, h)).
Proof.
  intros Hf Hok. rewrite (contains_ok_spec _ _ _ _ Hf k Hok). split.
  - do 2 f_equal. apply bool_decide_ext. by rewrite elem_of_dom.
  - intros Hk. destruct (e_items e !! k) as [w|] eqn:Hl; [|done].
    destruct (ok_items _ Hok _ _ Hl) as [Hm _]. congruence.
Qed.

Lemma contains_reports_presence_witness :
  __contains__ 0 (KInt 5) demo_store = (Ok true, demo_store) /\
  __contains__ 0 (KInt 6) demo_store = (Ok false, demo_store) /\
  __contains__ 0 (KStr "a") demo_store = (Ok false, demo_store).
Proof.
  assert (Hf : facade_at demo_store 0 1 demo_engine)
    by (split; vm_compute; reflexivity).
  assert (Hok : engine_ok demo_engine)
    by (apply engine_okb_ok; vm_compute; reflexivity).
  split; [|split].
  - exact (proj1 (contains_reports_presence demo_store 0 1 demo_engine (KInt 5) Hf Hok)).
  - exact (proj1 (contains_reports_presence demo_store 0 1 demo_engine (KInt 6) Hf Hok)).
  - apply (contains_reports_presence demo_store 0 1 demo_engine (KStr "a") Hf Hok).
    reflexivity.
Defined.

(** After an accepted [s[key] = w], [len(s)] has grown by one when the key
    is new and is unchanged when the key was stored, and every other key
    has the weight it had. *)
Theorem setitem_len_and_frame (h : store) (self l : loc) (e : engine)
    (k : pykey) (w : pyfloat) :
  facade_at h self l e -> engine_ok e ->
  key_matches (e_type e) k = true ->
  weight_in_range (e_min e) (e_max e) w = true ->
  exists h',
    __setitem__ self k w h = (Ok tt, h') /\
    __len__ self h' =
      (Ok (VInt (Z.of_nat (if bool_decide (k ∈ dom (e_items e))
                           then engine_size e else S (engine_size e)))), h') /\
    (forall k', k' <> k ->
       call_attr self "count" [VKey k'] h' =
         (Ok (count_value (e_items e !! k')), h')).
Proof.
  intros Hf Hok Hk Hw. eexists.
  split; [by apply (setitem_spec _ _ _ _ Hf)|].
  destruct (upsert_bounds k w e) as (Hmin & Hmax & _).
  pose proof (facade_at_update _ _ _ _ (upsert k w e) Hf Hmin Hmax) as Hf'.
  split.
  - rewrite (len_spec _ _ _ _ Hf'). do 3 f_equal.
    unfold engine_size. rewrite upsert_items.
    case_bool_decide as Hd; apply elem_of_dom in Hd || apply not_elem_of_dom in Hd.
    + destruct Hd as [old Hold]. by erewrite map_size_insert_Some.
    + by rewrite map_size_insert_None.
  - intros k' Hne. rewrite (count_spec _ _ _ _ Hf').
    by rewrite upsert_items, lookup_insert_ne.
Qed.

Lemma setitem_len_and_frame_witness :
  exists h',
    __setitem__ 0 (KInt 7) (Fin 3) demo_store = (Ok tt, h') /\
    __len__ 0 h' = (Ok (VInt 2), h') /\
    call_attr 0 "count" [VKey (KInt 5)] h' = (Ok (VFloat (Fin 2)), h').
Proof.
  destruct (setitem_len_and_frame demo_store 0 1 demo_engine (KInt 7) (Fin 3))
    as (h' & Hset & Hlen & Hfr).
  - split; vm_compute; reflexivity.
  - apply engine_okb_ok. vm_compute. reflexivity.
  - reflexivity.
  - reflexivity.
  - exists h'. split; [exact Hset|]. split; [exact Hlen|].
    apply (Hfr (KInt 5)). discriminate.
Defined.

(** [del s[key]] for a stored key removes it: afterwards the key is not in
    the container, [len(s)] is one less, the total weight is reduced by
    the weight removed, and every other key has the weight it had. *)
Theorem delitem_removes (h : store) (self l : loc) (e : engine)
    (k : pykey) (w0 : pyfloat) :
  facade_at h self l e -> e_items e !! k = Some w0 ->
  exists h',
    __delitem__ self k h = (Ok tt, h') /\
    __contains__ self k h' = (Ok false, h') /\
    __len__ self h' = (Ok (VInt (Z.of_nat (engine_size e - 1))), h') /\
    call_attr self "total_weight" [] h' = (Ok (VFloat (fsub (e_total e) w0)), h') /\
    (forall k', k' <> k ->
       call_attr self "count" [VKey k'] h' =
         (Ok (count_value (e_items e !! k')), h')).
Proof.
  intros Hf Hk.
  set (e' := set_items e (delete k (e_items e)) (fsub (e_total e) w0)).
  exists (<[l := OEngine e']> h).
  split; [by apply (delitem_spec _ _ _ _ _ w0 Hf)|].
  assert (Hf' : facade_at (<[l := OEngine e']> h) self l e')
    by by apply (facade_at_update _ _ _ e).
  split; [|split; [|split]].
  - rewrite (contains_spec _ _ _ _ Hf'). simpl. by rewrite lookup_delete_eq.
  - rewrite (len_spec _ _ _ _ Hf'). do 3 f_equal.
    unfold engine_size. simpl. rewrite map_size_delete, Hk. simpl. lia.
  - by rewrite (total_weight_spec _ _ _ _ Hf').
  - intros k' Hne. rewrite (count_spec _ _ _ _ Hf'). simpl.
    by rewrite lookup_delete_ne.
Qed.

Lemma delitem_removes_witness :
  exists h',
    __delitem__ 0 (KInt 5) demo_store = (Ok tt, h') /\
    __contains__ 0 (KInt 5) h' = (Ok false, h') /\
    __len__ 0 h' = (Ok (VInt 0), h').
Proof.
  destruct (delitem_removes demo_store 0 1 demo_engine (KInt 5) (Fin 2))
    as (h' & Hdel & Hin & Hlen & _).
  - split; vm_compute; reflexivity.
  - reflexivity.
  - exists h'. split; [exact Hdel|]. split; [exact Hin | exact Hlen].
Defined.

(** [del s[key]] for a key that is not stored raises the error of the
    compiled [erase] and leaves everything as it was. *)
Theorem delitem_missing_key (h : store) (self l : loc) (e : engine) (k : pykey) :
  facade_at h self l e -> e_items e !! k = None ->
  __delitem__ self k h = (Raise KeyNotFoundError, h).
Proof.
  intros Hf Hk. unfold __delitem__. apply bind_raise.
  eapply (call_attr_raise _ _ _ _ Hf); [reflexivity|].
  simpl. unfold engine_erase. by rewrite Hk.
Qed.

Lemma delitem_missing_key_witness :
  __delitem__ 0 (KInt 6) demo_store = (Raise KeyNotFoundError, demo_store).
Proof.
  apply (delitem_missing_key demo_store 0 1 demo_engine (KInt 6)).
  - split; vm_compute; reflexivity.
  - reflexivity.
Defined.

(** ** Assignments one after the other *)

(** Two accepted assignments to the same key, one after the other, leave
    the same contents as the second one alone: the same keys with the same
    weights, the last weight for the key, and the same [len].  (The running
    total is left out: the compiled object accumulates it in floating
    point.) *)
Theorem setitem_last_wins (h : store) (self l : loc) (e : engine)
    (k : pykey) (w1 w2 : pyfloat) :
  facade_at h self l e -> engine_ok e ->
  key_matches (e_type e) k = true ->
  weight_in_range (e_min e) (e_max e) w1 = true ->
  weight_in_range (e_min e) (e_max e) w2 = true ->
  exists h1 h2 e1 e2,
    __setitem__ self k w2 h = (Ok tt, h1) /\
    (__setitem__ self k w1 ;; __setitem__ self k w2) h = (Ok tt, h2) /\
    facade_at h1 self l e1 /\ facade_at h2 self l e2 /\
    e_items e2 = <[k := w2]> (e_items e) /\
    e_items e2 = e_items e1 /\
    call_attr self "count" [VKey k] h2 = (Ok (VFloat w2), h2) /\
    (forall k', fst (call_attr self "count" [VKey k'] h2) =
                fst (call_attr self "count" [VKey k'] h1)) /\
    fst (__len__ self h2) = fst (__len__ self h1).
Proof.
  intros Hf Hok Hk H1 H2.
  destruct (upsert_bounds k w1 e) as (Hmin1 & Hmax1 & Hty1).
  pose proof (facade_at_update _ _ _ _ (upsert k w1 e) Hf Hmin1 Hmax1) as Hf1.
  pose proof (upsert_ok k w1 e Hok Hk H1) as Hok1.
  destruct (upsert_bounds k w2 e) as (Hmin2 & Hmax2 & Hty2).
  pose proof (facade_at_update _ _ _ _ (upsert k w2 e) Hf Hmin2 Hmax2) as Hf2.
  destruct (upsert_bounds k w2 (upsert k w1 e)) as (Hmin3 & Hmax3 & Hty3).
  pose proof (facade_at_update _ _ _ _ (upsert k w2 (upsert k w1 e)) Hf1 Hmin3 Hmax3)
    as Hf3.
  rewrite list_insert_insert_eq in Hf3.
  assert (Hi : e_items (upsert k w2 (upsert k w1 e)) = <[k := w2]> (e_items e))
    by by rewrite !upsert_items, insert_insert_eq.
  exists (<[l := OEngine (upsert k w2 e)]> h),
         (<[l := OEngine (upsert k w2 (upsert k w1 e))]> h),
         (upsert k w2 e), (upsert k w2 (upsert k w1 e)).
  split; [by apply (setitem_spec _ _ _ _ Hf)|].
  split.
  { rewrite (bind_ok _ _ _ _ _ (setitem_spec _ _ _ _ Hf k w1 Hok Hk H1)).
    rewrite (setitem_spec _ _ _ _ Hf1 k w2 Hok1); [|by rewrite ?Hty1, ?Hmin1, ?Hmax1..].
    by rewrite list_insert_insert_eq. }
  split; [done|]. split; [done|]. split; [done|].
  split; [by rewrite Hi, upsert_items|].
  split; [by rewrite (count_spec _ _ _ _ Hf3), Hi, lookup_insert_eq|].
  split.
  - intros k'. rewrite (count_spec _ _ _ _ Hf3), (count_spec _ _ _ _ Hf2).
    by rewrite Hi, upsert_items.
  - rewrite (len_spec _ _ _ _ Hf3), (len_spec _ _ _ _ Hf2).
    unfold engine_size. by rewrite Hi, upsert_items.
Qed.

Lemma setitem_last_wins_witness :
  exists h1 h2 e1 e2,
    __setitem__ 0 (KInt 5) (Fin 3) demo_store = (Ok tt, h1) /\
    (__setitem__ 0 (KInt 5) (Fin 7) ;; __setitem__ 0 (KInt 5) (Fin 3)) demo_store =
      (Ok tt, h2) /\
    facade_at h1 0 1 e1 /\ facade_at h2 0 1 e2 /\
    e_items e2 = <[KInt 5 := Fin 3]> (e_items demo_engine) /\
    e_items e2 = e_items e1 /\
    call_attr 0 "count" [VKey (KInt 5)] h2 = (Ok (VFloat (Fin 3)), h2) /\
    (forall k', fst (call_attr 0 "count" [VKey k'] h2) =
                fst (call_attr 0 "count" [VKey k'] h1)) /\
    fst (__len__ 0 h2) = fst (__len__ 0 h1).
Proof.
  assert (Hf : facade_at demo_store 0 1 demo_engine)
    by (split; vm_compute; reflexivity).
  assert (Hok : engine_ok demo_engine)
    by (apply engine_okb_ok; vm_compute; reflexivity).
  apply (setitem_last_wins demo_store 0 1 demo_engine (KInt 5) (Fin 7) (Fin 3) Hf Hok);
    reflexivity.
Defined.

(** Assigning a new key and deleting it again restores the contents: the
    keys, their weights and [len] are those from before, the key is absent
    again, the bounds and the key variant are untouched, and no other
    object of the store has changed.  (The running total is left out: the
    compiled object accumulates it in floating point.) *)
Theorem setitem_delitem_roundtrip (h : store) (self l : loc) (e : engine)
    (k : pykey) (w : pyfloat) :
  facade_at h self l e -> engine_ok e ->
  key_matches (e_type e) k = true ->
  weight_in_range (e_min e) (e_max e) w = true ->
  e_items e !! k = None ->
  exists h' e',
    (__setitem__ self k w ;; __delitem__ self k) h = (Ok tt, h') /\
    facade_at h' self l e' /\
    e_items e' = e_items e /\
    e_min e' = e_min e /\ e_max e' = e_max e /\ e_type e' = e_type e /\
    __contains__ self k h' = (Ok false, h') /\
    (forall k', fst (call_attr self "count" [VKey k'] h') =
                fst (call_attr self "count" [VKey k'] h)) /\
    fst (__len__ self h') = fst (__len__ self h) /\
    (forall a, a <> l -> h' !! a = h !! a).
Proof.
  intros Hf Hok Hk Hw Hnone.
  destruct (upsert_bounds k w e) as (Hmin & Hmax & Hty).
  pose proof (facade_at_update _ _ _ _ (upsert k w e) Hf Hmin Hmax) as Hf1.
  set (e1 := upsert k w e) in *.
  set (e2 := set_items e1 (delete k (e_items e1)) (fsub (e_total e1) w)).
  assert (Hi : e_items e2 = e_items e).
  { unfold e2, e1. simpl. rewrite upsert_items. by apply delete_insert_id. }
  assert (Hf2 : facade_at (<[l := OEngine e2]> h) self l e2).
  { pose proof (facade_at_update _ _ _ _ e2 Hf1 eq_refl eq_refl) as Hf2.
    by rewrite list_insert_insert_eq in Hf2. }
  exists (<[l := OEngine e2]> h), e2.
  split.
  { rewrite (bind_ok _ _ _ _ _ (setitem_spec _ _ _ _ Hf k w Hok Hk Hw)).
    fold e1.
    rewrite (delitem_spec _ _ _ _ k w Hf1);
      [|by unfold e1; rewrite upsert_items, lookup_insert_eq].
    by rewrite list_insert_insert_eq. }
  split; [done|]. split; [done|].
  split; [done|]. split; [done|]. split; [done|].
  split; [by rewrite (contains_spec _ _ _ _ Hf2), Hi, Hnone|].
  split; [|split].
  - intros k'. by rewrite (count_spec _ _ _ _ Hf2), (count_spec _ _ _ _ Hf), Hi.
  - rewrite (len_spec _ _ _ _ Hf2), (len_spec _ _ _ _ Hf).
    unfold engine_size. by rewrite Hi.
  - intros a Ha. by apply list_lookup_insert_ne.
Qed.

Lemma setitem_delitem_roundtrip_witness :
  exists h' e',
    (__setitem__ 0 (KInt 8) (Fin 7) ;; __delitem__ 0 (KInt 8)) demo_store = (Ok tt, h') /\
    facade_at h' 0 1 e' /\
    e_items e' = e_items demo_engine /\
    e_min e' = e_min demo_engine /\ e_max e' = e_max demo_engine /\
    e_type e' = e_type demo_engine /\
    __contains__ 0 (KInt 8) h' = (Ok false, h') /\
    (forall k', fst (call_attr 0 "count" [VKey k'] h') =
                fst (call_attr 0 "count" [VKey k'] demo_store)) /\
    fst (__len__ 0 h') = fst (__len__ 0 demo_store) /\
    (forall a, a <> 1 -> h' !! a = demo_store !! a).
Proof.
  apply (setitem_delitem_roundtrip demo_store 0 1 demo_engine (KInt 8) (Fin 7)).
  - split; vm_compute; reflexivity.
  - apply engine_okb_ok. vm_compute. reflexivity.
  - reflexivity.
  - reflexivity.
  - reflexivity.
Defined.

(** ** Construction from sequences *)

Lemma inserts_last_weights (pairs : list (pykey * pyfloat)) :
  forall m : gmap pykey pyfloat,
  foldl (fun m kw => <[kw.1 := kw.2]> m) m pairs = last_weights pairs ∪ m.
Proof.
  unfold last_weights.
  induction pairs as [|[k w] rest IH]; intros m; simpl.
  - by rewrite (left_id_L ∅ (∪)).
  - rewrite IH, reverse_cons, list_to_map_app. simpl.
    rewrite <- (assoc_L (∪)). f_equal.
    rewrite insert_empty. by rewrite <- insert_union_singleton_l.
Qed.

Lemma last_weights_size (els : list pykey) (ws : list pyfloat) :
  length els = length ws ->
  size (last_weights (zip els ws)) = size (list_to_set els : gset pykey).
Proof.
  intros Hlen. unfold last_weights.
  rewrite <- size_dom, dom_list_to_map_L. f_equal.
  rewrite fmap_reverse, fst_zip by lia.
  apply set_eq. intros x. rewrite !elem_of_list_to_set. apply elem_of_reverse.
Qed.

Lemma initialize_first (self : loc) ew k0 w0 els ws :
  unpack ew = (k0 :: els, w0 :: ws) ->
  initialize self ew (Some (k0, w0)) =
    (__setitem__ self k0 w0 ;; __setitem__ self k0 w0 ;; assign_all self (zip els ws)).
Proof. unfold initialize. by intros ->. Qed.

Lemma init_runs (h : store) (self : loc) (mn mx : pyfloat)
    (ew : elements_weights_arg) (seed : option Z) (t : cpp_kind) k0 els w0 ws :
  h !! self = Some (OFacade ∅) -> valid_bounds mn mx = true ->
  ew_truthy ew = true -> unpack ew = (k0 :: els, w0 :: ws) ->
  length els = length ws ->
  Forall (fun kw => key_matches type_edge kw.1 = true /\
                    weight_in_range mn mx kw.2 = true) ((k0, w0) :: zip els ws) ->
  exists h' e,
    __init__ self mn mx ew seed t h = (Ok tt, h') /\
    facade_at h' self (length h) e /\ engine_ok e /\
    e = upsert_all ((k0, w0) :: zip els ws)
          (Engine type_edge mn mx ∅ fzero (rng_seed seed)).
Proof.
  intros Hs Hb Htr Hun Hlen Hall.
  set (e0 := Engine type_edge mn mx ∅ fzero (rng_seed seed)).
  pose proof Hall as Hall'.
  apply Forall_cons in Hall' as [[Hk0 Hw0] _]. simpl in Hk0, Hw0.
  assert (infer_cpp_type k0 = type_edge) as Hty by by destruct k0.
  destruct (instanciate_facade_at h self mn mx seed type_edge Hs Hb)
    as (h1 & e1 & Hinst & Hf1 & Hok1 & He1 & _ & _).
  fold e0 in He1. subst e1.
  pose proof (setitem_spec _ _ _ _ Hf1 k0 w0 Hok1 Hk0 Hw0) as Hset.
  destruct (upsert_bounds k0 w0 e0) as (Hmin & Hmax & Hty').
  pose proof (facade_at_update _ _ _ _ (upsert k0 w0 e0) Hf1 Hmin Hmax) as Hf2.
  pose proof (upsert_ok k0 w0 e0 Hok1 Hk0 Hw0) as Hok2.
  destruct (assign_all_spec self (length h) ((k0, w0) :: zip els ws) _ _ Hf2 Hok2)
    as [Hrun Hok3].
  { by rewrite Hmin, Hmax, Hty'. }
  assert (Heq : upsert_all ((k0, w0) :: zip els ws) (upsert k0 w0 e0) =
                upsert_all ((k0, w0) :: zip els ws) e0).
  { unfold upsert_all. simpl. by rewrite upsert_twice. }
  rewrite Heq, list_insert_insert_eq in Hrun. rewrite Heq in Hok3.
  exists (<[length h := OEngine (upsert_all ((k0, w0) :: zip els ws) e0)]> h1),
         (upsert_all ((k0, w0) :: zip els ws) e0).
  split; [|split; [|done]].
  - unfold __init__. erewrite bind_ok; cycle 1.
    { rewrite (unpacking_given _ _ _ k0 els w0 ws) by done.
      rewrite bool_decide_eq_true_2; [done|]. simpl. by rewrite Hlen. }
    cbn [fst snd]. rewrite Hty, (bind_ok _ _ _ _ _ Hinst).
    rewrite (initialize_first _ _ _ _ _ _ Hun), (bind_ok _ _ _ _ _ Hset).
    exact Hrun.
  - destruct (upsert_all_config ((k0, w0) :: zip els ws) e0) as (H1 & H2 & _).
    by apply (facade_at_update _ _ _ _ _ Hf1).
Qed.

(** Construction from a pair of sequences with as many weights as
    elements, keys of the variant the constructor selects and weights
    inside valid bounds: it returns, an element given several times ends
    with the weight of its last occurrence, and [len] is the number of
    different elements. *)
Theorem init_from_sequences (h : store) (self : loc) (min_weight max_weight : pyfloat)
    (els : list pykey) (ws : list pyfloat) (seed : option Z) (t : cpp_kind) :
  h !! self = Some (OFacade ∅) ->
  valid_bounds min_weight max_weight = true ->
  els <> [] -> length els = length ws ->
  Forall (fun kw => key_matches type_edge kw.1 = true /\
                    weight_in_range min_weight max_weight kw.2 = true) (zip els ws) ->
  exists h' e,
    __init__ self min_weight max_weight (ew_pair els ws) seed t h = (Ok tt, h') /\
    facade_at h' self (length h) e /\
    e_items e = last_weights (zip els ws) /\
    __len__ self h' =
      (Ok (VInt (Z.of_nat (size (list_to_set els : gset pykey)))), h') /\
    (forall k, call_attr self "count" [VKey k] h' =
                 (Ok (count_value (last_weights (zip els ws) !! k)), h')).
Proof.
  intros Hs Hb Hne Hlen Hall.
  destruct els as [|k0 els]; [done|]. destruct ws as [|w0 ws]; [done|].
  simpl in Hlen. injection Hlen as Hlen.
  destruct (init_runs h self min_weight max_weight (ew_pair (k0 :: els) (w0 :: ws))
              seed t k0 els w0 ws Hs Hb eq_refl eq_refl Hlen Hall)
    as (h' & e & Hinit & Hf & _ & He).
  assert (Hitems : e_items e = last_weights (zip (k0 :: els) (w0 :: ws))).
  { rewrite He, upsert_all_items, inserts_last_weights. simpl.
    by rewrite (right_id_L ∅ (∪)). }
  exists h', e. split; [done|]. split; [done|]. split; [done|]. split.
  - rewrite (len_spec _ _ _ _ Hf). unfold engine_size. rewrite Hitems.
    rewrite last_weights_size; [done|]. simpl. by rewrite Hlen.
  - intros k. rewrite (count_spec _ _ _ _ Hf). by rewrite Hitems.
Qed.

Lemma init_from_sequences_witness :
  exists h' e,
    __init__ 0 (Fin 1) (Fin 100)
      (ew_pair [KTriple 1 2 3; KTriple 4 5 6; KTriple 1 2 3] [Fin 2; Fin 3; Fin 5])
      None type_int [OFacade ∅] = (Ok tt, h') /\
    facade_at h' 0 1 e /\
    __len__ 0 h' = (Ok (VInt 2), h') /\
    call_attr 0 "count" [VKey (KTriple 1 2 3)] h' = (Ok (VFloat (Fin 5)), h').
Proof.
  destruct (init_from_sequences [OFacade ∅] 0 (Fin 1) (Fin 100)
              [KTriple 1 2 3; KTriple 4 5 6; KTriple 1 2 3] [Fin 2; Fin 3; Fin 5]
              None type_int)
    as (h' & e & Hinit & Hf & _ & Hlen & Hcnt).
  - reflexivity.
  - reflexivity.
  - discriminate.
  - reflexivity.
  - repeat constructor.
  - exists h', e. split; [exact Hinit|]. split; [exact Hf|]. split.
    + exact Hlen.
    + exact (Hcnt (KTriple 1 2 3)).
Defined.

(** ** What construction checks, and when *)

(** The sequences are checked before anything is created, whatever the
    bounds, the seed and [cpp_type]: an empty sequence of elements or of
    weights stops the construction at [next(iter(...))] with
    [StopIteration], and sequences of different lengths raise the
    [ValueError] of the length check.  The store is as it was. *)
Theorem init_checks_sequences (h : store) (self : loc) (mn mx : pyfloat)
    (els : list pykey) (ws : list pyfloat) (seed : option Z) (t : cpp_kind) :
  (els = [] \/ ws = [] ->
   __init__ self mn mx (ew_pair els ws) seed t h = (Raise StopIteration, h)) /\
  (els <> [] -> ws <> [] -> length els <> length ws ->
   __init__ self mn mx (ew_pair els ws) seed t h =
     (Raise (ValueError LengthMismatch), h)).
Proof.
  split.
  - intros Hempty. unfold __init__. apply bind_raise.
    unfold unpacking. simpl.
    destruct els as [|k0 els]; [done|]. destruct ws as [|w0 ws]; [done|].
    by destruct Hempty.
  - intros He Hw Hlen. unfold __init__. apply bind_raise.
    destruct els as [|k0 els]; [done|]. destruct ws as [|w0 ws]; [done|].
    rewrite (unpacking_given _ _ _ k0 els w0 ws) by done.
    by rewrite bool_decide_eq_false_2.
Qed.

Lemma init_checks_sequences_witness :
  __init__ 0 (Fin 1) (Fin 100) (ew_pair [] []) None type_int [OFacade ∅] =
    (Raise StopIteration, [OFacade ∅]) /\
  __init__ 0 (Fin 1) (Fin 100) (ew_pair [KTriple 1 2 3] []) None type_int [OFacade ∅] =
    (Raise StopIteration, [OFacade ∅]) /\
  __init__ 0 (Fin 1) (Fin 100) (ew_pair [KTriple 1 2 3] [Fin 2; Fin 3]) None type_int
      [OFacade ∅] =
    (Raise (ValueError LengthMismatch), [OFacade ∅]).
Proof.
  split; [|split].
  - apply (init_checks_sequences [OFacade ∅] 0 (Fin 1) (Fin 100) [] [] None type_int).
    left. reflexivity.
  - apply (init_checks_sequences [OFacade ∅] 0 (Fin 1) (Fin 100) [KTriple 1 2 3] []
             None type_int).
    right. reflexivity.
  - apply (init_checks_sequences [OFacade ∅] 0 (Fin 1) (Fin 100) [KTriple 1 2 3]
             [Fin 2; Fin 3] None type_int).
    + discriminate.
    + discriminate.
    + simpl. lia.
Defined.

(** The [cpp_type] argument decides the class of the compiled object only
    when no elements are given ([None] or an empty dict), and the container
    is then empty; as soon as elements are given the argument has no effect
    at all. *)
Theorem init_cpp_type_argument (h : store) (self : loc) (mn mx : pyfloat)
    (ew : elements_weights_arg) (seed : option Z) :
  (ew_truthy ew = false -> h !! self = Some (OFacade ∅) ->
   valid_bounds mn mx = true ->
   forall t, exists h',
     __init__ self mn mx ew seed t h = (Ok tt, h') /\
     class_of <$> h' !! length h = Some (template_classes t) /\
     __len__ self h' = (Ok (VInt 0), h') /\
     sample self 1 h' = (Ok (One VNone), h')) /\
  (ew_truthy ew = true ->
   forall t1 t2,
     __init__ self mn mx ew seed t1 h = __init__ self mn mx ew seed t2 h).
Proof.
  split.
  - intros Hfalse Hs Hb t.
    destruct (instanciate_facade_at h self mn mx seed t Hs Hb)
      as (h1 & e1 & Hinst & Hf1 & Hok1 & He1 & _ & _).
    exists h1. split; [|split; [|split]].
    + unfold __init__. rewrite (bind_ok _ _ _ _ _ (unpacking_falsy _ _ _ Hfalse)).
      cbn [fst snd]. rewrite (bind_ok _ _ _ _ _ Hinst).
      unfold initialize. by destruct (unpack ew).
    + destruct Hf1 as [_ ->]. by subst e1.
    + rewrite (len_spec _ _ _ _ Hf1). by subst e1.
    + unfold sample. simpl.
      rewrite (bind_ok _ _ _ _ _ (sample_once_spec _ _ _ _ Hf1)).
      rewrite engine_sample_empty by by subst e1. simpl.
      unfold ret. f_equal. apply store_insert_id, Hf1.
  - intros Htrue t1 t2. unfold __init__, unpacking. rewrite Htrue.
    by destruct (unpack ew).
Qed.

Lemma init_cpp_type_argument_witness :
  (exists h',
     __init__ 0 (Fin 1) (Fin 10) (ew_dict []) None type_edge [OFacade ∅] = (Ok tt, h') /\
     class_of <$> h' !! 1 = Some EdgeSamplableSet) /\
  __init__ 0 (Fin 1) (Fin 10) (ew_dict edge_dict) None type_int [OFacade ∅] =
    __init__ 0 (Fin 1) (Fin 10) (ew_dict edge_dict) None type_edge [OFacade ∅].
Proof.
  destruct (init_cpp_type_argument [OFacade ∅] 0 (Fin 1) (Fin 10) (ew_dict []) None)
    as [Hnone _].
  destruct (init_cpp_type_argument [OFacade ∅] 0 (Fin 1) (Fin 10) (ew_dict edge_dict) None)
    as [_ Hgiven].
  split.
  - destruct (Hnone eq_refl eq_refl eq_refl type_edge) as (h' & Hinit & Hcl & _).
    exists h'. split; [exact Hinit | exact Hcl].
  - apply Hgiven. reflexivity.
Defined.

Lemma assign_all_stops (self l : loc) (k : pykey) (w : pyfloat)
    (post : list (pykey * pyfloat)) (pre : list (pykey * pyfloat)) :
  forall (h : store) (e : engine),
  facade_at h self l e -> engine_ok e ->
  Forall (fun kw => key_matches (e_type e) kw.1 = true /\
                    weight_in_range (e_min e) (e_max e) kw.2 = true) pre ->
  weight_in_range (e_min e) (e_max e) w = false ->
  assign_all self (pre ++ (k, w) :: post) h =
    (Raise (ValueError OutOfRange), <[l := OEngine (upsert_all pre e)]> h).
Proof.
  induction pre as [|[k1 w1] pre IH]; intros h e Hf Hok Hall Hw; simpl.
  - rewrite (bind_raise _ _ _ _ _ (setitem_rejects _ _ _ _ Hf k w Hw)).
    f_equal. symmetry. apply store_insert_id, Hf.
  - apply Forall_cons in Hall as [[Hk1 Hw1] Hall]. simpl in Hk1, Hw1.
    rewrite (bind_ok _ _ _ _ _ (setitem_spec _ _ _ _ Hf k1 w1 Hok Hk1 Hw1)).
    destruct (upsert_bounds k1 w1 e) as (Hmin & Hmax & Hty).
    pose proof (facade_at_update _ _ _ _ (upsert k1 w1 e) Hf Hmin Hmax) as Hf'.
    pose proof (upsert_ok k1 w1 e Hok Hk1 Hw1) as Hok'.
    rewrite (IH _ _ Hf' Hok'); [|by rewrite Hmin, Hmax, Hty|by rewrite Hmin, Hmax].
    by rewrite list_insert_insert_eq.
Qed.

(** A weight outside the bounds among the elements given to the
    constructor raises the range error from inside [__init__], after the
    compiled object was created and the pairs before the offending one
    were stored: the instance is left constructed, holding exactly those
    pairs. *)
Theorem init_stops_at_bad_weight (h : store) (self : loc) (mn mx : pyfloat)
    (ew : elements_weights_arg) (seed : option Z) (t : cpp_kind)
    (pre post : list (pykey * pyfloat)) (k : pykey) (w : pyfloat) :
  h !! self = Some (OFacade ∅) -> valid_bounds mn mx = true ->
  ew_truthy ew = true ->
  unpack ew = ((pre ++ (k, w) :: post).*1, (pre ++ (k, w) :: post).*2) ->
  Forall (fun kw => key_matches type_edge kw.1 = true /\
                    weight_in_range mn mx kw.2 = true) pre ->
  weight_in_range mn mx w = false ->
  exists h' e,
    __init__ self mn mx ew seed t h = (Raise (ValueError OutOfRange), h') /\
    facade_at h' self (length h) e /\
    e_items e = last_weights pre /\
    __len__ self h' = (Ok (VInt (Z.of_nat (size (last_weights pre)))), h').
Proof.
  intros Hs Hb Htr Hun Hall Hw.
  assert (Hpost : forall h' e, facade_at h' self (length h) e ->
            e_items e = last_weights pre ->
            __len__ self h' = (Ok (VInt (Z.of_nat (size (last_weights pre)))), h')).
  { intros h' e Hf Hi. rewrite (len_spec _ _ _ _ Hf). unfold engine_size.
    by rewrite Hi. }
  destruct pre as [|[k0 w0] pre].
  - simpl in Hun.
    destruct (instanciate_facade_at h self mn mx seed (infer_cpp_type k) Hs Hb)
      as (h1 & e1 & Hinst & Hf1 & Hok1 & He1 & _ & _).
    exists h1, e1. split; [|split; [done|split]].
    + unfold __init__. erewrite bind_ok; cycle 1.
      { rewrite (unpacking_given _ _ _ k (post.*1) w (post.*2)) by done.
        rewrite bool_decide_eq_true_2; [done|].
        by rewrite !length_cons, !length_fmap. }
      cbn [fst snd]. rewrite (bind_ok _ _ _ _ _ Hinst).
      rewrite (initialize_first _ _ _ _ _ _ Hun).
      apply bind_raise. apply (setitem_rejects _ _ _ _ Hf1). by subst e1.
    + by subst e1.
    + apply (Hpost _ _ Hf1). by subst e1.
  - simpl in Hun.
    pose proof Hall as Hall'.
    apply Forall_cons in Hall' as [[Hk0 Hw0] _]. simpl in Hk0, Hw0.
    assert (infer_cpp_type k0 = type_edge) as Hty by by destruct k0.
    set (e0 := Engine type_edge mn mx ∅ fzero (rng_seed seed)).
    destruct (instanciate_facade_at h self mn mx seed type_edge Hs Hb)
      as (h1 & e1 & Hinst & Hf1 & Hok1 & He1 & _ & _).
    fold e0 in He1. subst e1.
    pose proof (setitem_spec _ _ _ _ Hf1 k0 w0 Hok1 Hk0 Hw0) as Hset.
    destruct (upsert_bounds k0 w0 e0) as (Hmin & Hmax & Hty').
    pose proof (facade_at_update _ _ _ _ (upsert k0 w0 e0) Hf1 Hmin Hmax) as Hf2.
    pose proof (upsert_ok k0 w0 e0 Hok1 Hk0 Hw0) as Hok2.
    pose proof (assign_all_stops self (length h) k w post ((k0, w0) :: pre)
                  _ _ Hf2 Hok2) as Hrun.
    rewrite Hmin, Hmax, Hty' in Hrun. specialize (Hrun Hall Hw).
    assert (Heq : upsert_all ((k0, w0) :: pre) (upsert k0 w0 e0) =
                  upsert_all ((k0, w0) :: pre) e0).
    { unfold upsert_all. simpl. by rewrite upsert_twice. }
    rewrite Heq, list_insert_insert_eq in Hrun.
    set (e := upsert_all ((k0, w0) :: pre) e0) in *.
    assert (Hf3 : facade_at (<[length h := OEngine e]> h1) self (length h) e).
    { destruct (upsert_all_config ((k0, w0) :: pre) e0) as (H1 & H2 & _).
      by apply (facade_at_update _ _ _ _ _ Hf1). }
    assert (Hitems : e_items e = last_weights ((k0, w0) :: pre)).
    { unfold e. rewrite upsert_all_items, inserts_last_weights. simpl.
      by rewrite (right_id_L ∅ (∪)). }
    exists (<[length h := OEngine e]> h1), e.
    split; [|split; [done|split; [done|by apply (Hpost _ _ Hf3)]]].
    unfold __init__. erewrite bind_ok; cycle 1.
    { rewrite (unpacking_given _ _ _ k0 ((pre ++ (k, w) :: post).*1) w0
                 ((pre ++ (k, w) :: post).*2)) by done.
      rewrite bool_decide_eq_true_2; [done|].
      by rewrite !length_cons, !length_fmap. }
    cbn [fst snd]. rewrite Hty, (bind_ok _ _ _ _ _ Hinst).
    rewrite (initialize_first _ _ _ _ _ _ Hun), (bind_ok _ _ _ _ _ Hset).
    rewrite zip_fst_snd. exact Hrun.
Qed.

Lemma init_stops_at_bad_weight_witness :
  exists h' e,
    __init__ 0 (Fin 1) (Fin 10)
      (ew_dict [(KTriple 1 2 3, Fin 2); (KTriple 4 5 6, Fin 50); (KTriple 7 8 9, Fin 3)])
      None type_int [OFacade ∅] = (Raise (ValueError OutOfRange), h') /\
    facade_at h' 0 1 e /\
    __len__ 0 h' = (Ok (VInt 1), h').
Proof.
  destruct (init_stops_at_bad_weight [OFacade ∅] 0 (Fin 1) (Fin 10)
              (ew_dict [(KTriple 1 2 3, Fin 2); (KTriple 4 5 6, Fin 50);
                        (KTriple 7 8 9, Fin 3)])
              None type_int [(KTriple 1 2 3, Fin 2)] [(KTriple 7 8 9, Fin 3)]
              (KTriple 4 5 6) (Fin 50))
    as (h' & e & Hinit & Hf & _ & Hlen).
  - reflexivity.
  - reflexivity.
  - reflexivity.
  - reflexivity.
  - repeat constructor.
  - reflexivity.
  - exists h', e. split; [exact Hinit|]. split; [exact Hf | exact Hlen].
Defined.

(** ** What every instance satisfies, and what calls keep *)

Lemma init_store (h h' : store) (self : loc) (mn mx : pyfloat)
    (ew : elements_weights_arg) (seed : option Z) (t : cpp_kind) :
  h !! self = Some (OFacade ∅) ->
  __init__ self mn mx ew seed t h = (Ok tt, h') ->
  valid_bounds mn mx = true /\
  exists h1 e,
    h' = <[length h := OEngine e]> h1 /\
    length h1 = S (length h) /\
    (forall i, i < length h -> i <> self -> h1 !! i = h !! i) /\
    facade_at h' self (length h) e /\ engine_ok e /\
    e_min e = mn /\ e_max e = mx.
Proof.
  intros Hs Hinit.
  destruct (valid_bounds mn mx) eqn:Hb; cycle 1.
  { destruct (init_rejects_bounds h self mn mx ew seed t Hb) as [x Hx]. congruence. }
  split; [done|]. revert Hinit. unfold __init__.
  pose proof (unpacking_pure ew t h) as Hp.
  unfold bind at 1.
  destruct (unpacking ew t h) as [[[ty first]|x] h0]; simpl in Hp; subst h0; [|done].
  cbn [fst snd].
  destruct (instanciate_facade_at h self mn mx seed ty Hs Hb)
    as (h1 & e1 & Hinst & Hf1 & Hok1 & He1 & Hlen1 & Hfr1).
  rewrite (bind_ok _ _ _ _ _ Hinst).
  assert (Hmm : e_min e1 = mn /\ e_max e1 = mx) by by subst e1.
  destruct Hmm as [Hmn Hmx].
  unfold initialize. destruct (unpack ew) as [els ws].
  destruct first as [[k0 w0]|]; cycle 1.
  { intros [= <-]. exists h1, e1. split; [|done].
    symmetry. apply store_insert_id, Hf1. }
  pose proof (setitem_effect _ _ _ _ k0 w0 Hf1) as Hset.
  pose proof (facade_effect_ok (fc_setitem k0 w0) e1 Hok1) as Hok2.
  destruct (facade_effect_config (fc_setitem k0 w0) e1) as (Hmin & Hmax & Hty).
  pose proof (facade_at_update _ _ _ _ _ Hf1 Hmin Hmax) as Hf2.
  unfold bind.
  destruct (__setitem__ self k0 w0 h1) as [[[]|x] h2]; cbn [snd] in Hset; subst h2; [|done].
  destruct (assign_all_local self (length h) (zip els ws) _ _ Hf2 Hok2)
    as (e' & Hrun & Hok3 & (H1 & H2 & H3)).
  destruct (assign_all self (zip els ws) _) as [[[]|x] h3]; simpl in Hrun; [|done].
  intros [= <-]. subst h3. rewrite list_insert_insert_eq.
  exists h1, e'. split; [done|]. split; [done|]. split; [done|].
  split; [|split; [done|]].
  - apply (facade_at_update _ _ _ _ _ Hf1); [by rewrite H1, Hmin | by rewrite H2, Hmax].
  - split; [by rewrite H1, Hmin | by rewrite H2, Hmax].
Qed.

(** Whenever a construction returns, the bounds were valid, exactly one
    object was added to the store and no other object was touched, and the
    instance is well formed: its [min_weight] and [max_weight] are the
    bounds of its compiled object, its six bound methods are methods of
    that same object, and every stored key is of the container's variant
    with a weight inside the bounds. *)
Theorem construction_invariant (h h' : store) (self : loc) (mn mx : pyfloat)
    (ew : elements_weights_arg) (seed : option Z) (t : cpp_kind) :
  h !! self = Some (OFacade ∅) ->
  __init__ self mn mx ew seed t h = (Ok tt, h') ->
  valid_bounds mn mx = true /\
  length h' = S (length h) /\
  (forall i, i < length h -> i <> self -> h' !! i = h !! i) /\
  exists e,
    h' !! self = Some (OFacade (facade_dict (length h) mn mx)) /\
    h' !! length h = Some (OEngine e) /\
    engine_ok e /\ e_min e = mn /\ e_max e = mx.
Proof.
  intros Hs Hinit.
  destruct (init_store _ _ _ _ _ _ _ _ Hs Hinit)
    as (Hb & h1 & e & -> & Hlen & Hfr & Hf & Hok & Hmn & Hmx).
  split; [done|]. split; [by rewrite length_insert|]. split.
  - intros i Hi Hne. rewrite list_lookup_insert_ne by lia. by apply Hfr.
  - exists e. destruct Hf as [Hself Hl]. rewrite Hmn, Hmx in Hself. done.
Qed.

Lemma construction_invariant_witness :
  valid_bounds (Fin 1) (Fin 10) = true /\
  length (snd (__init__ 0 (Fin 1) (Fin 10) ew_none None type_int [OFacade ∅])) = 2.
Proof.
  destruct (construction_invariant [OFacade ∅]
              (snd (__init__ 0 (Fin 1) (Fin 10) ew_none None type_int [OFacade ∅]))
              0 (Fin 1) (Fin 10) ew_none None type_int)
    as (Hb & Hlen & _).
  - reflexivity.
  - vm_compute. reflexivity.
  - split; [exact Hb | exact Hlen].
Defined.

(** A call on an instance (assignment, deletion, a bound method, sampling
    with its generator run to the end) changes nothing in the store but the
    instance's compiled object, whose bounds and key variant stay the
    same; the instance is well formed after the call as before, whether
    the call returned or raised. *)
Theorem calls_are_local (h : store) (self l : loc) (e : engine) (fc : facade_call) :
  facade_at h self l e -> engine_ok e ->
  exists e',
    snd (run_facade_call self fc h) = <[l := OEngine e']> h /\
    facade_at (<[l := OEngine e']> h) self l e' /\
    engine_ok e' /\ same_config e e'.
Proof.
  intros Hf Hok. exists (facade_effect fc e).
  pose proof (facade_effect_config fc e) as Hc.
  split; [by apply facade_call_effect|]. split; [|split; [|done]].
  - destruct Hc as (Hmin & Hmax & _). by apply (facade_at_update _ _ _ e).
  - by apply facade_effect_ok.
Qed.

Lemma calls_are_local_witness :
  exists e',
    snd (run_facade_call 0 (fc_setitem (KInt 9) (Fin 4)) demo_store) =
      <[1 := OEngine e']> demo_store /\
    engine_ok e'.
Proof.
  destruct (calls_are_local demo_store 0 1 demo_engine (fc_setitem (KInt 9) (Fin 4)))
    as (e' & Hs & _ & Hok & _).
  - split; vm_compute; reflexivity.
  - apply engine_okb_ok. vm_compute. reflexivity.
  - exists e'. split; [exact Hs | exact Hok].
Defined.

Lemma call_attr_raise_store (h h' : store) self l e name m args x :
  facade_at h self l e ->
  facade_dict l (e_min e) (e_max e) !! name = Some (ABound l m) ->
  (call_attr self name args ;; ret tt) h = (Raise x, h') -> h' = h.
Proof.
  intros Hf Hn. destruct (invoke m args e) as [[v e']|y] eqn:Hi.
  - by rewrite (bind_ok _ _ _ _ _ (call_attr_ok _ _ _ _ Hf _ _ _ _ _ Hn Hi)).
  - rewrite (bind_raise _ _ _ _ _ (call_attr_raise _ _ _ _ Hf _ _ _ _ Hn Hi)).
    by intros [= _ <-].
Qed.

(** A call on an instance that raises leaves the store exactly as it was:
    no assignment, deletion or bound method changes the container and then
    fails.  Sampling never raises. *)
Theorem failed_call_changes_nothing (h h' : store) (self l : loc) (e : engine)
    (fc : facade_call) (x : exn) :
  facade_at h self l e ->
  run_facade_call self fc h = (Raise x, h') ->
  h' = h /\ (forall n, fc <> fc_sample n).
Proof.
  intros Hf. destruct fc as [k w|k|k w|k w|k|n]; simpl.
  - unfold __setitem__.
    rewrite (bind_ok _ _ _ _ _ (weight_check_spec _ _ _ _ Hf w)).
    destruct (weight_in_range (e_min e) (e_max e) w).
    + rewrite (bind_ok _ _ _ _ _ (contains_spec _ _ _ _ Hf k)).
      destruct (match e_items e !! k with
                | Some w0 => float_truthy w0
                | None => false
                end); intros Hr; (split; [|done]);
        by eapply (call_attr_raise_store _ _ _ _ _ _ _ _ _ Hf); [|exact Hr].
    + by intros [= _ <-].
  - intros Hr. split; [|done].
    by eapply (call_attr_raise_store _ _ _ _ _ _ _ _ _ Hf); [|exact Hr].
  - intros Hr. split; [|done].
    by eapply (call_attr_raise_store _ _ _ _ _ _ _ _ _ Hf); [|exact Hr].
  - intros Hr. split; [|done].
    by eapply (call_attr_raise_store _ _ _ _ _ _ _ _ _ Hf); [|exact Hr].
  - intros Hr. split; [|done].
    by eapply (call_attr_raise_store _ _ _ _ _ _ _ _ _ Hf); [|exact Hr].
  - unfold sample. destruct (n =? 1)%Z.
    + unfold bind, ret. by rewrite (sample_once_spec _ _ _ _ Hf).
    + unfold bind at 1, ret at 1.
      destruct (gen_run_spec self l (Z.to_nat n) h e Hf) as (vs & e' & Hrun & _).
      unfold gen_list, sample_generator. simpl.
      by rewrite (bind_ok _ _ _ _ _ Hrun).
Qed.

Lemma failed_call_changes_nothing_witness :
  run_facade_call 0 (fc_insert (KInt 5) (Fin 3)) demo_store =
    (Raise DuplicateKeyError, demo_store) /\
  (demo_store = demo_store /\
   forall n, fc_insert (KInt 5) (Fin 3) <> fc_sample n).
Proof.
  assert (Hr : run_facade_call 0 (fc_insert (KInt 5) (Fin 3)) demo_store =
               (Raise DuplicateKeyError, demo_store)) by (vm_compute; reflexivity).
  split; [exact Hr|].
  apply (failed_call_changes_nothing demo_store demo_store 0 1 demo_engine
           (fc_insert (KInt 5) (Fin 3)) DuplicateKeyError).
  - split; vm_compute; reflexivity.
  - exact Hr.
Defined.

(** ** More on sampling *)

(** For a count of zero or less, [sample] gives a generator that is over
    at once: advancing it signals the end, its list is empty, and neither
    creating nor consuming it touches the store, on any object. *)
Theorem sample_nonpositive_count (h : store) (self : loc) (n : Z) :
  (n <= 0)%Z ->
  sample self n h = (Ok (Gen (sample_generator self n)), h) /\
  gen_next (sample_generator self n) h = (Ok (None, sample_generator self n), h) /\
  gen_list (sample_generator self n) h = (Ok [], h).
Proof.
  intros Hn. unfold sample, gen_next, gen_list, sample_generator. simpl.
  destruct (Z.eqb_spec n 1) as [->|_]; [lia|].
  by rewrite Z2Nat.nonpos.
Qed.

Lemma sample_nonpositive_count_witness :
  (-3 <= 0)%Z /\
  gen_list (sample_generator 0 (-3)) demo_store = (Ok [], demo_store) /\
  gen_list (sample_generator 0 0) demo_store = (Ok [], demo_store).
Proof.
  assert (H3 : (-3 <= 0)%Z) by lia.
  assert (H0 : (0 <= 0)%Z) by lia.
  split; [exact H3|]. split.
  - apply (sample_nonpositive_count demo_store 0 (-3) H3).
  - apply (sample_nonpositive_count demo_store 0 0 H0).
Defined.

(** The generator keeps no snapshot: made in one state of the store, it
    draws from the container as it is when it is consumed.  Creating it
    samples nothing and needs nothing of the store. *)
Theorem generator_reads_at_consumption (h h2 : store) (self l : loc)
    (e2 : engine) (n : Z) :
  n <> 1%Z ->
  facade_at h2 self l e2 ->
  exists g,
    sample self n h = (Ok (Gen g), h) /\
    exists vs e',
      gen_list g h2 = (Ok vs, <[l := OEngine e']> h2) /\
      length vs = Z.to_nat n /\
      Forall (drawn_from (e_items e2)) vs /\
      e_items e' = e_items e2.
Proof.
  intros Hn Hf2. exists (sample_generator self n). split.
  - unfold sample. by destruct (Z.eqb_spec n 1).
  - destruct (gen_run_spec self l (Z.to_nat n) h2 e2 Hf2)
      as (vs & e' & Hrun & Hlen & _ & Hi & _ & Hall).
    by exists vs, e'.
Qed.

Lemma drawn_from_singleton k w v :
  drawn_from {[k := w]} v -> v = VPair k w.
Proof.
  destruct v as [| | | |k' w']; simpl; try done.
  intros Hl. apply lookup_singleton_Some in Hl as [-> ->]. done.
Qed.

Lemma all_same {A} (x : A) (vs : list A) :
  Forall (fun v => v = x) vs -> vs = replicate (length vs) x.
Proof.
  induction 1 as [|v vs -> _ IH]; simpl; [done|]. by rewrite <- IH.
Qed.

(** With exactly one stored key, sampling is certain: [sample()] returns
    that key with its weight, a generator for [n] results gives it [n]
    times, and the key is still stored afterwards. *)
Theorem sample_single_element (h : store) (self l : loc) (e : engine)
    (k : pykey) (w : pyfloat) (n : Z) :
  facade_at h self l e -> e_items e = {[k := w]} ->
  (exists e', sample self 1 h = (Ok (One (VPair k w)), <[l := OEngine e']> h) /\
              e_items e' = {[k := w]}) /\
  (n <> 1%Z ->
   exists e', gen_list (sample_generator self n) h =
                (Ok (replicate (Z.to_nat n) (VPair k w)), <[l := OEngine e']> h) /\
              e_items e' = {[k := w]}).
Proof.
  intros Hf Hi. split.
  - exists (snd (engine_sample e)). split.
    + unfold sample. simpl.
      rewrite (bind_ok _ _ _ _ _ (sample_once_spec _ _ _ _ Hf)).
      unfold ret. do 3 f_equal. apply drawn_from_singleton.
      rewrite <- Hi. apply drawn_from_sample.
    + by rewrite (proj1 (engine_sample_items e)).
  - intros _.
    destruct (gen_run_spec self l (Z.to_nat n) h e Hf)
      as (vs & e' & Hrun & Hlen & _ & Hi' & _ & Hall).
    exists e'. split; [|by rewrite Hi'].
    unfold gen_list, sample_generator. simpl. rewrite Hrun.
    do 2 f_equal. rewrite <- Hlen. apply all_same.
    eapply Forall_impl; [exact Hall|]. intros v Hv.
    apply drawn_from_singleton. by rewrite <- Hi.
Qed.

Lemma sample_single_element_witness :
  (exists e', sample 0 1 demo_store =
                (Ok (One (VPair (KInt 5) (Fin 2))), <[1 := OEngine e']> demo_store)) /\
  (exists e', gen_list (sample_generator 0 5) demo_store =
                (Ok (replicate 5 (VPair (KInt 5) (Fin 2))), <[1 := OEngine e']> demo_store)).
Proof.
  assert (Hf : facade_at demo_store 0 1 demo_engine)
    by (split; vm_compute; reflexivity).
  destruct (sample_single_element demo_store 0 1 demo_engine (KInt 5) (Fin 2) 5 Hf)
    as [[e1 [H1 _]] Hn].
  - reflexivity.
  - split; [by exists e1|].
    destruct Hn as (e' & Hg & _); [lia|]. by exists e'.
Defined.

Lemma generator_reads_at_consumption_witness :
  exists g,
    sample 0 5 [] = (Ok (Gen g), []) /\
    exists vs e',
      gen_list g demo_store = (Ok vs, <[1 := OEngine e']> demo_store) /\
      length vs = 5.
Proof.
  destruct (generator_reads_at_consumption [] demo_store 0 1 demo_engine 5)
    as (g & Hs & vs & e' & Hrun & Hlen & _).
  - lia.
  - split; vm_compute; reflexivity.
  - exists g. split; [exact Hs|]. exists vs, e'. split; [exact Hrun | exact Hlen].
Defined.

(** ** Printing *)

Lemma builtin_len_spec (h : store) (self l : loc) (e : engine) :
  facade_at h self l e ->
  builtin_len self h = (Ok (Z.of_nat (engine_size e)), h).
Proof.
  intros Hf. unfold builtin_len.
  rewrite (bind_ok _ _ _ _ _ (len_spec _ _ _ _ Hf)).
  destruct (Z.ltb_spec (Z.of_nat (engine_size e)) 0); [lia|done].
Qed.

(** [str(s)] and [repr(s)] are the same text, "SamplableSet of n element"
    for the number [n] of stored keys, with an "s" at the end exactly when
    [n] is two or more (so an empty container reads "0 element");
    producing it never raises and changes nothing. *)
Theorem str_describes_size (h : store) (self l : loc) (e : engine) :
  facade_at h self l e ->
  __str__ self h = (Ok (description (engine_size e)), h) /\
  __repr__ self h = (Ok (description (engine_size e)), h) /\
  (engine_size e = 0 -> __str__ self h = (Ok "SamplableSet of 0 element", h)) /\
  (engine_size e = 1 -> __str__ self h = (Ok "SamplableSet of 1 element", h)) /\
  (2 <= engine_size e ->
   __str__ self h =
     (Ok ("SamplableSet of " +:+ pretty (Z.of_nat (engine_size e)) +:+ " elements"), h)).
Proof.
  intros Hf.
  assert (Hstr : __str__ self h = (Ok (description (engine_size e)), h)).
  { unfold __str__. rewrite !(bind_ok _ _ _ _ _ (builtin_len_spec _ _ _ _ Hf)).
    unfold ret, description. do 3 f_equal.
    destruct (Z.ltb_spec 1 (Z.of_nat (engine_size e))); case_decide; done || lia. }
  split; [done|]. split; [done|]. rewrite Hstr.
  split; [by intros ->|]. split; [by intros ->|].
  intros Hge. unfold description. rewrite decide_True by lia. done.
Qed.

Lemma str_describes_size_witness :
  __str__ 0 demo_store = (Ok "SamplableSet of 1 element", demo_store) /\
  __repr__ 0 demo_store = (Ok "SamplableSet of 1 element", demo_store).
Proof.
  destruct (str_describes_size demo_store 0 1 demo_engine)
    as (_ & Hrepr & _ & Hone & _).
  - split; vm_compute; reflexivity.
  - split; [apply Hone; reflexivity | exact Hrepr].
Defined.

(** ** One compiled object behind every access *)

Lemma alias_one (h : store) (self l : loc) (e : engine) name m args :
  facade_at h self l e ->
  facade_dict l (e_min e) (e_max e) !! name = Some (ABound l m) ->
  assoc name engine_methods = Some m ->
  call_attr self name args h =
    (s <- getattr self "_samplable_set" ;; f <- getattr_of s name ;; call f args) h /\
  exists m, getattr self name h = (Ok (ABound l m), h) /\
            getattr l name h = (Ok (ABound l m), h).
Proof.
  intros Hf Hn Hm.
  assert (Hg : getattr l name h = (Ok (ABound l m), h))
    by (eapply getattr_engine; [apply Hf|done]).
  split.
  - rewrite (bind_ok _ _ _ _ _ (attr_of _ _ _ _ Hf "_samplable_set" _ eq_refl)).
    simpl. rewrite (bind_ok _ _ _ _ _ Hg).
    unfold call_attr. by rewrite (bind_ok _ _ _ _ _ (attr_of _ _ _ _ Hf _ _ Hn)).
  - exists m. split; [by apply (attr_of _ _ _ _ Hf)|done].
Qed.

(** The six methods bound on the instance are methods of the very object
    [_samplable_set] refers to: calling [s.name(args)] is the same
    computation as [s._samplable_set.name(args)], so what one changes the
    other sees. *)
Theorem bound_methods_alias (h : store) (self l : loc) (e : engine)
    (name : string) (args : list pyval) :
  facade_at h self l e -> name ∈ bound_names ->
  call_attr self name args h =
    (s <- getattr self "_samplable_set" ;; f <- getattr_of s name ;; call f args) h /\
  exists m, getattr self name h = (Ok (ABound l m), h) /\
            getattr l name h = (Ok (ABound l m), h).
Proof.
  intros Hf Hin. unfold bound_names in Hin.
  repeat (apply elem_of_cons in Hin as [->|Hin]);
    [..|by apply elem_of_nil in Hin];
    by eapply (alias_one _ _ _ _ _ _ _ Hf).
Qed.

Lemma bound_methods_alias_witness :
  call_attr 0 "insert" [VKey (KInt 9); VFloat (Fin 4)] demo_store =
    (s <- getattr 0 "_samplable_set" ;; f <- getattr_of s "insert" ;;
     call f [VKey (KInt 9); VFloat (Fin 4)]) demo_store.
Proof.
  apply (bound_methods_alias demo_store 0 1 demo_engine "insert"
           [VKey (KInt 9); VFloat (Fin 4)]).
  - split; vm_compute; reflexivity.
  - unfold bound_names. do 3 apply list_elem_of_further. apply list_elem_of_here.
Defined.

(** ** The attributes of an instance *)

Lemma facade_dict_dom l mn mx :
  dom (facade_dict l mn mx) = list_to_set instance_names.
Proof.
  unfold facade_dict, instance_names. rewrite !dom_insert_L, dom_empty_L.
  apply set_eq. intros x. rewrite elem_of_list_to_set.
  rewrite !elem_of_union, !elem_of_singleton, !elem_of_cons, elem_of_nil.
  rewrite elem_of_empty. tauto.
Qed.

Lemma in_names_spec name names : in_names name names = true <-> name ∈ names.
Proof.
  unfold in_names. rewrite existsb_exists. split.
  - intros (x & Hin & Heq). apply String.eqb_eq in Heq as ->.
    by apply list_elem_of_In.
  - intros Hin. exists name. split; [by apply list_elem_of_In|].
    apply String.eqb_refl.
Qed.

(** For a name without two leading underscores, an attribute lookup on a
    constructed instance succeeds exactly for the nine names [__init__]
    sets and for [copy], [sample] and [sample_generator] of the class
    body, and changes nothing; every other such name raises
    [AttributeError].  So the instance has no [get_weight], and none of
    the [clear], [empty] and [cpp_type] that the tests use. *)
Theorem instance_attributes (h : store) (self l : loc) (e : engine) (name : string) :
  facade_at h self l e ->
  is_dunder name = false ->
  snd (getattr self name h) = h /\
  (is_ok (fst (getattr self name h)) = true <->
   name ∈ (instance_names ++ ["copy"; "sample"; "sample_generator"])) /\
  (name ∉ (instance_names ++ ["copy"; "sample"; "sample_generator"]) ->
   getattr self name h = (Raise (AttributeError name), h)) /\
  Forall (fun n => getattr self n h = (Raise (AttributeError n), h))
         ["get_weight"; "clear"; "empty"; "cpp_type"].
Proof.
  intros Hf Hd.
  assert (Hpub : name ∈ (instance_names ++ SamplableSet_functions) <->
                 name ∈ (instance_names ++ ["copy"; "sample"; "sample_generator"])).
  { rewrite !elem_of_app. unfold SamplableSet_functions.
    rewrite !elem_of_cons, !elem_of_nil.
    split; intros [Hi|Hc]; auto; right.
    - repeat (destruct Hc as [->|Hc]; [try discriminate Hd; tauto|]). done.
    - repeat (destruct Hc as [->|Hc]; [tauto|]). done. }
  assert (Hcases : (name ∈ (instance_names ++ SamplableSet_functions) /\
                    exists a, getattr self name h = (Ok a, h)) \/
                   ((name ∉ (instance_names ++ SamplableSet_functions)) /\
                    getattr self name h = (Raise (AttributeError name), h))).
  { unfold getattr. destruct Hf as [-> _].
    destruct (facade_dict l (e_min e) (e_max e) !! name) as [a|] eqn:Hl.
    - left. split; [|by exists a]. apply elem_of_app. left.
      apply (elem_of_list_to_set (C := gset string)).
      rewrite <- (facade_dict_dom l (e_min e) (e_max e)).
      apply elem_of_dom. by exists a.
    - assert (name ∉ instance_names) as Hni.
      { intros Hin. apply (elem_of_list_to_set (C := gset string)) in Hin.
        rewrite <- (facade_dict_dom l (e_min e) (e_max e)) in Hin.
        apply elem_of_dom in Hin as [a Ha]. congruence. }
      unfold class_has. destruct (in_names name SamplableSet_functions) eqn:Hc.
      + left. split; [|by eexists]. apply elem_of_app. right.
        by apply in_names_spec.
      + right. split; [|done]. intros Hin. apply elem_of_app in Hin as [Hin|Hin]; [done|].
        apply in_names_spec in Hin. congruence. }
  split; [|split; [|split]].
  - by destruct Hcases as [[_ [a ->]]|[_ ->]].
  - rewrite <- Hpub.
    destruct Hcases as [[Hin [a ->]]|[Hni ->]]; simpl; split; done.
  - rewrite <- Hpub. intros Hni. by destruct Hcases as [[Hin _]|[_ ->]].
  - unfold getattr. destruct Hf as [-> _]. repeat constructor.
Qed.

Lemma instance_attributes_witness :
  getattr 0 "clear" demo_store = (Raise (AttributeError "clear"), demo_store) /\
  is_ok (fst (getattr 0 "count" demo_store)) = true.
Proof.
  assert (Hf : facade_at demo_store 0 1 demo_engine)
    by (split; vm_compute; reflexivity).
  split.
  - apply (instance_attributes demo_store 0 1 demo_engine "clear" Hf eq_refl).
    apply (bool_decide_unpack _). vm_compute. exact I.
  - apply (instance_attributes demo_store 0 1 demo_engine "count" Hf eq_refl).
    apply (bool_decide_unpack _). vm_compute. exact I.
Defined.
